(** * SuperStore KPI dashboard: the filtering and aggregation pipeline of [app.py]

    The script loads one table, narrows it through five cascading selectors
    and a date range, computes four KPIs and seven grouped views, and hands
    them to the charting calls.  This development embeds that pipeline and
    proves the properties the design document states about it.

    Conventions of the embedding:
    - a DataFrame is the list of its rows, in row order;
    - a categorical cell is an [option string], [None] being a missing cell
      (the script itself calls [dropna()] on these columns);
    - [Order Date] is a [datetime64] timestamp, kept as nanoseconds since the
      epoch; the two date widgets return calendar dates, kept as day numbers;
    - [Sales] and [Profit] are finite numbers kept as exact rationals: the
      rounding of binary floating point is not part of this model, and no
      statement below compares two sums of these columns that pandas takes
      in different ways (a column sum against the sum of its group sums);
    - [Quantity] is an [int64] column, and its sums wrap around as numpy's do;
    - DataFrames are objects in a store, variables hold references: the
      script's aliasing ([df_filtered_region = df_original]) and its in-place
      column writes ([df['Year'] = ...]) are modelled as such;
    - [session] is one run of the whole script; [script] is that run for the
      two dates the date widgets returned, without the rendering of the
      widgets.  The two agree on every loaded table that has a row; on a
      table without rows the first date widget raises. *)

From Stdlib Require Import ZArith QArith Lia.
From Stdlib Require Import String DecimalString OrderedTypeEx.
From stdpp Require Import base option list sorting strings.

Local Open Scope Z_scope.

(** ** Timestamps, dates and the calendar *)

(** [datetime64[ns]]: nanoseconds since 1970-01-01T00:00. *)
Definition Timestamp := Z.

(** [datetime.date], as the number of days since 1970-01-01. *)
Definition Date := Z.

Definition ns_per_day : Z := 86400 * 1000000000.

(** [pd.to_datetime(d)] for a [datetime.date]: midnight of that day. *)
Definition to_datetime (d : Date) : Timestamp := d * ns_per_day.

(** The calendar day a timestamp falls on ([Timestamp.date()]). *)
Definition date_of (t : Timestamp) : Date := t / ns_per_day.

(** Proleptic Gregorian (year, month, day) of a day number. *)
Definition civil_of_days (d : Date) : Z * Z * Z :=
  let z := d + 719468 in
  let era := z / 146097 in
  let doe := z - era * 146097 in
  let yoe := (doe - doe / 1460 + doe / 36524 - doe / 146096) / 365 in
  let doy := doe - (365 * yoe + yoe / 4 - yoe / 100) in
  let mp := (5 * doy + 2) / 153 in
  let day := doy - (153 * mp + 2) / 5 + 1 in
  let month := if mp <? 10 then mp + 3 else mp - 9 in
  let year := yoe + era * 400 + (if month <=? 2 then 1 else 0) in
  (year, month, day).

(** [Series.dt.year] *)
Definition dt_year (t : Timestamp) : Z :=
  let '(y, _, _) := civil_of_days (date_of t) in y.

Definition dt_quarter (t : Timestamp) : Z :=
  let '(_, m, _) := civil_of_days (date_of t) in (m - 1) / 3 + 1.

Definition str_of_Z (z : Z) : string := NilZero.string_of_int (Z.to_int z).

(** [Series.dt.to_period('Q').astype(str)]: labels such as 2016Q1. *)
Definition quarter_label (t : Timestamp) : string :=
  (str_of_Z (dt_year t) ++ "Q" ++ str_of_Z (dt_quarter t))%string.

(** ** Rows and frames *)

Record Row : Type := mkRow {
  Order_Date   : Timestamp;
  Region       : option string;
  State        : option string;
  Category     : option string;
  Sub_Category : option string;
  Segment      : option string;
  Product_Name : option string;
  Sales        : Q;
  Quantity     : Z;
  Profit       : Q;
  (* columns the script adds later; absent ([None]) in the loaded table *)
  Year         : option Z;
  Quarter      : option string;
  Margin_Rate  : option Q
}.

Abbreviation DataFrame := (list Row).

(** The four KPIs of the radio button. *)
Inductive KPI : Type := KSales | KQuantity | KProfit | KMarginRate.

(** ** Column arithmetic *)

(** [int64] wrap-around. *)
Definition wrap_int64 (z : Z) : Z := (z + 2 ^ 63) mod 2 ^ 64 - 2 ^ 63.

(** [Series.sum()] of an [int64] column. *)
Definition sum_int64 (l : list Z) : Z :=
  foldr (fun x acc => wrap_int64 (x + acc)) 0 l.

(** The sum of float cells, as the exact rational: what [Series.sum()] and
    the sum of a group return up to their rounding. *)
Definition sumQ (l : list Q) : Q := foldr Qplus 0%Q l.

(** [s.replace(0, 1)], cell by cell. *)
Definition replace_0_1 (s : Q) : Q := if Qeq_bool s 0 then 1%Q else s.

(** [profit / sales.replace(0, 1)]: the margin rate of the grouped views and
    of the per-row column of line 288. *)
Definition margin_rate_of (sales profit : Q) : Q := (profit / replace_0_1 sales)%Q.

(** ** Ordering of keys, [unique] and [sorted] *)

Class Ord (K : Type) := ord_leb : K -> K -> bool.

#[export] Instance Z_Ord : Ord Z := Z.leb.
#[export] Instance string_Ord : Ord string := String.leb.
#[export] Instance pair_Ord {A B} `{EqDecision A, Ord A, Ord B} : Ord (A * B) :=
  fun x y => if decide (x.1 = y.1) then ord_leb x.2 y.2 else ord_leb x.1 y.1.

Definition ord_le {K} `{Ord K} (a b : K) : Prop := Is_true (ord_leb a b).

(** Python's [sorted] and pandas' ordering of group keys: a stable merge sort. *)
Definition sorted {K} `{Ord K} (l : list K) : list K := merge_sort ord_le l.

(** [Series.unique()]: distinct values in order of first appearance. *)
Fixpoint unique {A} `{EqDecision A} (l : list A) : list A :=
  match l with
  | [] => []
  | x :: l' => x :: filter (fun y => y <> x) (unique l')
  end.

(** [Series.dropna()] of a column of the frame. *)
Definition dropna {A} (col : Row -> option A) (df : DataFrame) : list A := omap col df.

(** [["All"] + sorted(df[col].dropna().unique())] *)
Definition select_options (col : Row -> option string) (df : DataFrame) : list string :=
  "All"%string :: sorted (unique (dropna col df)).

(** ** Grouping and aggregation *)

(** [df.groupby(key)]: one group per distinct key, keys in sorted order, rows
    in frame order inside a group; rows whose key has a missing cell are left
    out (pandas' default [dropna=True]). *)
Definition groupby {K} `{EqDecision K, Ord K}
    (key : Row -> option K) (df : DataFrame) : list (K * DataFrame) :=
  (fun k => (k, filter (fun r => key r = Some k) df)) <$> sorted (unique (dropna key df)).

(** A row of an aggregated view. *)
Record Agg (K : Type) : Type := mkAgg {
  gkey        : K;
  SumSales    : Q;
  SumQuantity : Z;
  SumProfit   : Q;
  MarginRate  : Q
}.
Arguments mkAgg {K}.
Arguments gkey {K}.
Arguments SumSales {K}.
Arguments SumQuantity {K}.
Arguments SumProfit {K}.
Arguments MarginRate {K}.

(** [.agg({"Sales": "sum", "Quantity": "sum", "Profit": "sum"}).reset_index()]
    followed by [v["Margin Rate"] = v["Profit"] / v["Sales"].replace(0, 1)]. *)
Definition agg_group {K} (g : K * DataFrame) : Agg K :=
  let ss := sumQ (Sales <$> g.2) in
  let sp := sumQ (Profit <$> g.2) in
  mkAgg g.1 ss (sum_int64 (Quantity <$> g.2)) sp (margin_rate_of ss sp).

Definition grouped_view {K} `{EqDecision K, Ord K}
    (key : Row -> option K) (df : DataFrame) : list (Agg K) :=
  agg_group <$> groupby key df.

(** The same with ["Margin Rate": "sum"] in the aggregation: the per-row
    margin-rate column is summed over the group (lines 380-385). *)
Definition agg_group_margin_sum {K} (g : K * DataFrame) : Agg K :=
  mkAgg g.1 (sumQ (Sales <$> g.2)) (sum_int64 (Quantity <$> g.2))
        (sumQ (Profit <$> g.2)) (sumQ (omap Margin_Rate g.2)).

Definition grouped_view_margin_sum {K} `{EqDecision K, Ord K}
    (key : Row -> option K) (df : DataFrame) : list (Agg K) :=
  agg_group_margin_sum <$> groupby key df.

(** The value of the selected KPI column in a view row. *)
Definition metric {K} (k : KPI) (g : Agg K) : Q :=
  match k with
  | KSales => SumSales g
  | KQuantity => inject_Z (SumQuantity g)
  | KProfit => SumProfit g
  | KMarginRate => MarginRate g
  end.

(** Keys of the seven groupings. *)
Definition pair_key {A B} (f : Row -> option A) (g : Row -> option B) (r : Row) : option (A * B) :=
  match f r, g r with
  | Some a, Some b => Some (a, b)
  | _, _ => None
  end.

Definition by_order_date (r : Row) : option Timestamp := Some (Order_Date r).

(** ** The store of frames and the script monad *)

(** A reference to a DataFrame object. *)
Definition ref := nat.

(** What the script shows besides tiles and charts. *)
Inductive UiEvent : Type :=
  | Selectbox (label : string) (options : list string)
  | SidebarError (msg : string)
  | Warning (msg : string).

Record World : Type := mkWorld {
  frames : list DataFrame;   (* the DataFrame objects, by reference *)
  ui     : list UiEvent      (* what has been displayed so far *)
}.

(** The two exceptions a run can end with: the [TypeError] of the state
    lookup (line 231) and the [ValueError] of a date widget (line 84). *)
Inductive Exn : Type := TypeError | ValueError.

Inductive Result (A : Type) : Type :=
  | Ok (a : A)
  | Raised (e : Exn).
Arguments Ok {A}.
Arguments Raised {A}.

(** A script step: it may allocate, read and overwrite frames, display, and
    raise; what was done before an exception stays done. *)
Definition M (A : Type) : Type := World -> Result A * World.

Definition ret {A} (a : A) : M A := fun w => (Ok a, w).

Definition bind {A B} (m : M A) (k : A -> M B) : M B :=
  fun w => match m w with
           | (Ok a, w') => k a w'
           | (Raised e, w') => (Raised e, w')
           end.

Notation "x <- m ;; k" := (bind m (fun x => k))
  (at level 100, m at next level, right associativity).
Notation "m ;;; k" := (bind m (fun _ => k))
  (at level 100, right associativity).

Definition raise {A} (e : Exn) : M A := fun w => (Raised e, w).

(** A new DataFrame object. *)
Definition new_frame (f : DataFrame) : M ref :=
  fun w => (Ok (length (frames w)), mkWorld (frames w ++ [f]) (ui w)).

(** The rows the object holds now. *)
Definition read_frame (r : ref) : M DataFrame :=
  fun w => (Ok (default [] (frames w !! r)), w).

(** Overwrite the object in place. *)
Definition write_frame (r : ref) (f : DataFrame) : M unit :=
  fun w => (Ok tt, mkWorld (<[r := f]> (frames w)) (ui w)).

Definition display (e : UiEvent) : M unit :=
  fun w => (Ok tt, mkWorld (frames w) (ui w ++ [e])).

(** [df[mask]]: boolean indexing builds a new object. *)
Definition getitem_mask (r : ref) (mask : Row -> bool) : M ref :=
  f <- read_frame r ;; new_frame (filter (fun x => mask x) f).

(** [df.copy()] *)
Definition copy (r : ref) : M ref :=
  f <- read_frame r ;; new_frame f.

(** [df[col] = <column computed row by row>]: the object itself changes. *)
Definition setitem (r : ref) (upd : Row -> Row) : M unit :=
  f <- read_frame r ;; write_frame r (upd <$> f).

(** The same when computing the new column may raise: the right-hand side is
    evaluated in full before the assignment. *)
Fixpoint try_map {A B} (f : A -> Result B) (l : list A) : Result (list B) :=
  match l with
  | [] => Ok []
  | x :: l' =>
      match f x with
      | Raised e => Raised e
      | Ok y => match try_map f l' with
                | Raised e => Raised e
                | Ok ys => Ok (y :: ys)
                end
      end
  end.

Definition setitem_try (r : ref) (upd : Row -> Result Row) : M unit :=
  f <- read_frame r ;;
  match try_map upd f with
  | Raised e => raise e
  | Ok f' => write_frame r f'
  end.

(** Column writes on a row. *)
Definition set_Order_Date (v : Timestamp) (r : Row) : Row :=
  mkRow v (Region r) (State r) (Category r) (Sub_Category r) (Segment r)
        (Product_Name r) (Sales r) (Quantity r) (Profit r) (Year r) (Quarter r) (Margin_Rate r).
Definition set_State (v : option string) (r : Row) : Row :=
  mkRow (Order_Date r) (Region r) v (Category r) (Sub_Category r) (Segment r)
        (Product_Name r) (Sales r) (Quantity r) (Profit r) (Year r) (Quarter r) (Margin_Rate r).
Definition set_Year (v : Z) (r : Row) : Row :=
  mkRow (Order_Date r) (Region r) (State r) (Category r) (Sub_Category r) (Segment r)
        (Product_Name r) (Sales r) (Quantity r) (Profit r) (Some v) (Quarter r) (Margin_Rate r).
Definition set_Quarter (v : string) (r : Row) : Row :=
  mkRow (Order_Date r) (Region r) (State r) (Category r) (Sub_Category r) (Segment r)
        (Product_Name r) (Sales r) (Quantity r) (Profit r) (Year r) (Some v) (Margin_Rate r).
Definition set_Margin_Rate (v : Q) (r : Row) : Row :=
  mkRow (Order_Date r) (Region r) (State r) (Category r) (Sub_Category r) (Segment r)
        (Product_Name r) (Sales r) (Quantity r) (Profit r) (Year r) (Quarter r) (Some v).

(** ** Filters *)

(** What the user picked in the sidebar. *)
Record FilterState : Type := mkFilterState {
  selected_region   : string;
  selected_state    : string;
  selected_category : string;
  selected_subcat   : string;
  selected_segment  : string;
  from_date         : Date;
  to_date           : Date
}.

(** [df[col] == v]: a missing cell compares unequal to every string. *)
Definition eq_mask (col : Row -> option string) (v : string) (r : Row) : bool :=
  bool_decide (col r = Some v).

(** [(df["Order Date"] >= pd.to_datetime(from_date))
     & (df["Order Date"] <= pd.to_datetime(to_date))] *)
Definition date_mask (from to : Date) (r : Row) : bool :=
  (to_datetime from <=? Order_Date r) && (Order_Date r <=? to_datetime to).

Definition is_All (s : string) : bool := String.eqb s "All".

(** One cascading stage: offer the options of the column in the frame
    narrowed so far, then narrow by the pick unless it is ["All"], in which
    case the variable is bound to the same object. *)
Definition select_stage (label : string) (col : Row -> option string)
    (pick : string) (r : ref) : M ref :=
  f <- read_frame r ;;
  display (Selectbox label (select_options col f)) ;;;
  if negb (is_All pick) then getitem_mask r (eq_mask col pick) else ret r.

(** The Sub-Category and Segment stages of lines 57-73: the options are
    read first, the frame is copied, and the copy is narrowed. *)
Definition select_stage_copy (label : string) (col : Row -> option string)
    (pick : string) (r : ref) : M ref :=
  f <- read_frame r ;;
  display (Selectbox label (select_options col f)) ;;;
  df <- copy r ;;
  if negb (is_All pick) then getitem_mask df (eq_mask col pick) else ret df.

(** The loaded table is the object at reference 0. *)
Definition df_original : ref := 0%nat.

(** Lines 24-73 and 92-99: the five cascading selectors, then the date
    check and the date mask for the two dates the date widgets returned.
    (The widgets themselves, lines 76-89, are [date_widgets] below.) *)

Definition filter_phase (fs : FilterState) : M ref :=
  df_filtered_region <- select_stage "Select Region" Region (selected_region fs) df_original ;;
  df_filtered_state <- select_stage "Select State" State (selected_state fs) df_filtered_region ;;
  df_filtered_category <-
    select_stage "Select Category" Category (selected_category fs) df_filtered_state ;;
  df <- select_stage_copy "Select Sub-Category" Sub_Category (selected_subcat fs)
          df_filtered_category ;;
  df <- select_stage_copy "Select Segment" Segment (selected_segment fs) df ;;
  (if from_date fs >? to_date fs
   then display (SidebarError "From Date must be earlier than To Date.")
   else ret tt) ;;;
  getitem_mask df (date_mask (from_date fs) (to_date fs)).

(** ** KPIs *)

Record KPIs : Type := mkKPIs {
  total_sales    : Q;
  total_quantity : Z;
  total_profit   : Q;
  margin_rate    : Q
}.

(** [df.empty] *)
Definition empty (df : DataFrame) : bool :=
  match df with [] => true | _ => false end.

(** Lines 134-143. *)
Definition kpi_calculation (df : DataFrame) : KPIs :=
  if empty df then mkKPIs 0 0 0 0
  else
    let ts := sumQ (Sales <$> df) in
    let tq := sum_int64 (Quantity <$> df) in
    let tp := sumQ (Profit <$> df) in
    mkKPIs ts tq tp (if negb (Qeq_bool ts 0) then (tp / ts)%Q else 0%Q).

(** ** The grouped views *)

Record Charts : Type := mkCharts {
  daily_grouped        : list (Agg Timestamp);
  product_grouped      : list (Agg string);     (* after the in-place sort *)
  top_10               : list (Agg string);
  year_segment_grouped : list (Agg (Z * string));
  state_grouped        : list (Agg string);
  quarterly_grouped    : list (Agg string);
  quarterly_data       : list (Agg (string * string));
  df_grouped_new       : list (Agg (string * string))
}.

Record Output : Type := mkOutput {
  out_df     : ref;             (* the variable [df] *)
  out_kpis   : KPIs;
  out_charts : option Charts    (* [None]: the else branch of line 193 did not run *)
}.

(** ** The rows after each step *)

(** The rows a selector stage hands on. *)
Definition narrow (col : Row -> option string) (pick : string) (f : DataFrame) : DataFrame :=
  if negb (is_All pick) then filter (fun r => eq_mask col pick r) f else f.

Definition after_region (fs : FilterState) (d : DataFrame) : DataFrame :=
  narrow Region (selected_region fs) d.
Definition after_state (fs : FilterState) (d : DataFrame) : DataFrame :=
  narrow State (selected_state fs) (after_region fs d).
Definition after_category (fs : FilterState) (d : DataFrame) : DataFrame :=
  narrow Category (selected_category fs) (after_state fs d).
Definition after_subcat (fs : FilterState) (d : DataFrame) : DataFrame :=
  narrow Sub_Category (selected_subcat fs) (after_category fs d).
Definition after_segment (fs : FilterState) (d : DataFrame) : DataFrame :=
  narrow Segment (selected_segment fs) (after_subcat fs d).

(** The rows of [df] after line 99. *)
Definition apply_filters (fs : FilterState) (d : DataFrame) : DataFrame :=
  filter (fun r => date_mask (from_date fs) (to_date fs) r) (after_segment fs d).

(** What the sidebar has shown after line 99. *)
Definition sidebar (fs : FilterState) (d : DataFrame) : list UiEvent :=
  [ Selectbox "Select Region" (select_options Region d);
    Selectbox "Select State" (select_options State (after_region fs d));
    Selectbox "Select Category" (select_options Category (after_state fs d));
    Selectbox "Select Sub-Category" (select_options Sub_Category (after_category fs d));
    Selectbox "Select Segment" (select_options Segment (after_subcat fs d)) ]
  ++ (if from_date fs >? to_date fs
      then [SidebarError "From Date must be earlier than To Date."] else []).

(** The frame [df] after each in-place column write of the chart phase. *)
Definition with_year (f : DataFrame) : DataFrame :=
  (fun r => set_Year (dt_year (Order_Date r)) r) <$> f.

Definition with_quarter (f : DataFrame) : DataFrame :=
  (fun r => set_Quarter (quarter_label (Order_Date r)) r)
    <$> ((fun r => set_Order_Date (Order_Date r) r) <$> f).

Definition with_margin_rate (f : DataFrame) : DataFrame :=
  (fun r => set_Margin_Rate (margin_rate_of (Sales r) (Profit r)) r) <$> f.

(** ** The chart phase and the script *)

Section Dashboard.

(** [us.states.lookup(name).abbr], when the lookup finds a state: the table
    belongs to the [us] package. *)
Variable us_abbr : string -> option string.

(** [sort_values(by=..., ascending=False)] with the default
    [kind='quicksort']: the routine belongs to pandas and numpy. *)
Variable sort_values_desc : forall A : Type, (A -> Q) -> list A -> list A.

(** [lambda x: us.states.lookup(x).abbr if us.states.lookup(x) else x]; the
    lookup matches its argument as text and raises [TypeError] on a
    missing cell. *)
Definition abbreviate (r : Row) : Result Row :=
  match State r with
  | None => Raised TypeError
  | Some s => Ok (set_State (Some (default s (us_abbr s))) r)
  end.

(** Lines 198-266, 288 and 380-385, without the plotting calls and the
    reshaping done only for a plot ([pivot], [quarterly_total]). *)
Definition chart_phase (selected_kpi : KPI) (df : ref) : M Charts :=
  f <- read_frame df ;;
  let daily := grouped_view by_order_date f in
  let product := grouped_view Product_Name f in
  let product := sort_values_desc _ (metric selected_kpi) product in
  let top := take 10 product in
  setitem df (fun r => set_Year (dt_year (Order_Date r)) r) ;;;
  f <- read_frame df ;;
  let year_segment := grouped_view (pair_key Year Segment) f in
  setitem_try df abbreviate ;;;
  f <- read_frame df ;;
  let state := grouped_view State f in
  setitem df (fun r => set_Order_Date (Order_Date r) r) ;;;
  setitem df (fun r => set_Quarter (quarter_label (Order_Date r)) r) ;;;
  f <- read_frame df ;;
  let quarterly := grouped_view Quarter f in
  let quarter_category := grouped_view (pair_key Quarter Category) f in
  setitem df (fun r => set_Margin_Rate (margin_rate_of (Sales r) (Profit r)) r) ;;;
  f <- read_frame df ;;
  let category_quarter := grouped_view_margin_sum (pair_key Category Quarter) f in
  ret (mkCharts daily product top year_segment state quarterly quarter_category
                category_quarter).

(** One run for the two dates the date widgets returned: lines 24-73 and
    92-414. *)
Definition script (fs : FilterState) (selected_kpi : KPI) : M Output :=
  df <- filter_phase fs ;;
  f <- read_frame df ;;
  let kpis := kpi_calculation f in
  if empty f
  then display (Warning "No data available for the selected filters and date range.") ;;;
       ret (mkOutput df kpis None)
  else ch <- chart_phase selected_kpi df ;;
       ret (mkOutput df kpis (Some ch)).

(** The views, given the filtered rows [f] and the rows [f2] after the
    year column and the state abbreviations were written. *)
Definition charts_of (selected_kpi : KPI) (f f2 : DataFrame) : Charts :=
  let product := sort_values_desc _ (metric selected_kpi) (grouped_view Product_Name f) in
  mkCharts
    (grouped_view by_order_date f)
    product
    (take 10 product)
    (grouped_view (pair_key Year Segment) (with_year f))
    (grouped_view State f2)
    (grouped_view Quarter (with_quarter f2))
    (grouped_view (pair_key Quarter Category) (with_quarter f2))
    (grouped_view_margin_sum (pair_key Category Quarter) (with_margin_rate (with_quarter f2))).

Definition charts_result (selected_kpi : KPI) (f : DataFrame) : Result Charts :=
  match try_map abbreviate (with_year f) with
  | Raised e => Raised e
  | Ok f2 => Ok (charts_of selected_kpi f f2)
  end.

(** What one run returns. *)
Definition script_result (fs : FilterState) (kpi : KPI) (d : DataFrame) (r : ref)
  : Result Output :=
  let f := apply_filters fs d in
  if empty f then Ok (mkOutput r (kpi_calculation f) None)
  else match charts_result kpi f with
       | Raised e => Raised e
       | Ok ch => Ok (mkOutput r (kpi_calculation f) (Some ch))
       end.

End Dashboard.

(** The state of a session right after [load_data()]. *)
Definition loaded (d : DataFrame) : World := mkWorld [d] [].

(** ** Sample instances of the two library routines *)

Definition us_abbr_sample (s : string) : option string :=
  if String.eqb s "California" then Some "CA"
  else if String.eqb s "New York" then Some "NY"
  else if String.eqb s "Texas" then Some "TX"
  else None.

(** A stable descending sort: each row, from the last to the first, goes in
    front of the first row that is not larger, so equal rows keep their
    order. *)
Fixpoint insert_desc {A} (m : A -> Q) (x : A) (l : list A) : list A :=
  match l with
  | [] => [x]
  | y :: l' => if Qle_bool (m y) (m x) then x :: l else y :: insert_desc m x l'
  end.

Definition stable_sort_desc (A : Type) (m : A -> Q) (l : list A) : list A :=
  foldr (insert_desc m) [] l.

(** Another descending sort: each row goes in front of the first strictly
    smaller row, so equal rows come out in reverse order. *)
Fixpoint insert_desc_behind {A} (m : A -> Q) (x : A) (l : list A) : list A :=
  match l with
  | [] => [x]
  | y :: l' => if Qle_bool (m x) (m y) then y :: insert_desc_behind m x l' else x :: l
  end.

Definition reversing_sort_desc (A : Type) (m : A -> Q) (l : list A) : list A :=
  foldr (insert_desc_behind m) [] l.

(** ** Vocabulary of the statements *)

(** The warning of line 192. *)
Definition no_data : UiEvent :=
  Warning "No data available for the selected filters and date range.".

(** [foldr add zero]: the total of a column in any commutative monoid. *)
Definition total {V} (add : V -> V -> V) (zero : V) (l : list V) : V := foldr add zero l.

(** The keys of a grouping: each value of the key column once. *)
Definition group_keys {K} `{EqDecision K, Ord K} (key : Row -> option K) (df : DataFrame)
  : list K := sorted (unique (dropna key df)).

(** A world in which the loaded table [d] sits at reference 0, the frame
    [f] at reference [r], and [shown] is on the screen. *)
Definition holds (d : DataFrame) (w : World) (r : ref) (f : DataFrame)
    (shown : list UiEvent) : Prop :=
  frames w !! df_original = Some d /\ frames w !! r = Some f /\ ui w = shown.

(** A selector that is set (not ["All"]) is met by the row. *)
Definition picked (col : Row -> option string) (pick : string) (r : Row) : Prop :=
  pick <> "All"%string -> col r = Some pick.

(** The row's Order Date lies between midnight of [from] and midnight of
    [to], both included. *)
Definition in_date_range (from to : Date) (r : Row) : Prop :=
  to_datetime from <= Order_Date r <= to_datetime to.

Definition satisfies (fs : FilterState) (r : Row) : Prop :=
  picked Region (selected_region fs) r
  /\ picked State (selected_state fs) r
  /\ picked Category (selected_category fs) r
  /\ picked Sub_Category (selected_subcat fs) r
  /\ picked Segment (selected_segment fs) r
  /\ in_date_range (from_date fs) (to_date fs) r.

(** The masks the script applies for a filter state, in its order: one
    equality mask per selector that is set, then the date mask. *)
Definition set_mask (col : Row -> option string) (pick : string) : list (Row -> bool) :=
  if negb (is_All pick) then [eq_mask col pick] else [].

Definition set_predicates (fs : FilterState) : list (Row -> bool) :=
  set_mask Region (selected_region fs)
  ++ set_mask State (selected_state fs)
  ++ set_mask Category (selected_category fs)
  ++ set_mask Sub_Category (selected_subcat fs)
  ++ set_mask Segment (selected_segment fs)
  ++ [date_mask (from_date fs) (to_date fs)].

(** Boolean indexing by each mask of a list in turn. *)
Definition apply_in_order (ps : list (Row -> bool)) (d : DataFrame) : DataFrame :=
  foldl (fun df (p : Row -> bool) => filter (fun r => p r) df) d ps.

(** Descending order of a column of values. *)
Definition desc {A} (m : A -> Q) (a b : A) : Prop := (m b <= m a)%Q.

(** What [sort_values(ascending=False)] promises whatever its [kind]: the
    same rows, in descending order of the column. *)
Definition sorts_desc (sort : forall A : Type, (A -> Q) -> list A -> list A) : Prop :=
  forall (A : Type) (m : A -> Q) (l : list A),
    sort A m l ≡ₚ l /\ Sorted (desc m) (sort A m l).

(** The least that a sorting routine does: it returns the rows it is
    given, in some order. *)
Definition reorders (sort : forall A : Type, (A -> Q) -> list A -> list A) : Prop :=
  forall (A : Type) (m : A -> Q) (l : list A), sort A m l ≡ₚ l.

(** Strict order of the option strings. *)
Definition string_lt (a b : string) : Prop := String.ltb a b = true.

(** ** The date widgets (lines 75-89) *)

(** [Series.min()] and [Series.max()] of a datetime column; [NaT], here
    [None], when the column has no row. *)
Definition series_min (l : list Timestamp) : option Timestamp :=
  match l with
  | [] => None
  | t :: l' => Some (foldr Z.min t l')
  end.

Definition series_max (l : list Timestamp) : option Timestamp :=
  match l with
  | [] => None
  | t :: l' => Some (foldr Z.max t l')
  end.

(** Lines 76-82: [min_date] and [max_date], taken from the rows the
    selectors left, or from the loaded table when they left none. *)
Definition date_bounds (original df : DataFrame) : option Timestamp * option Timestamp :=
  if empty df
  then (series_min (Order_Date <$> original), series_max (Order_Date <$> original))
  else (series_min (Order_Date <$> df), series_max (Order_Date <$> df)).

(** The filter state of a user who makes the five picks and leaves both date
    widgets at their initial value: a widget given a timestamp as [value]
    shows, and returns, its calendar day. *)
Definition with_default_dates (picks : FilterState) (d : DataFrame) : option FilterState :=
  match date_bounds d (after_segment picks d) with
  | (Some min_date, Some max_date) =>
      Some (mkFilterState (selected_region picks) (selected_state picks)
              (selected_category picks) (selected_subcat picks) (selected_segment picks)
              (date_of min_date) (date_of max_date))
  | _ => None
  end.

(** The timestamp has no time of day. *)
Definition at_midnight (r : Row) : Prop := Order_Date r mod ns_per_day = 0.

(** [st.sidebar.date_input(label, value=v, min_value=lo, max_value=hi)]: the
    widget takes the calendar day of each timestamp it is given, which
    raises [ValueError] on [NaT]; otherwise it returns the day the user
    picks. *)
Definition date_input (value min_value max_value : option Timestamp) (pick : Date) : M Date :=
  match value, min_value, max_value with
  | Some _, Some _, Some _ => ret pick
  | _, _, _ => raise ValueError
  end.

(** Lines 28-73: the five cascading selectors. *)
Definition selectors (fs : FilterState) : M ref :=
  df_filtered_region <- select_stage "Select Region" Region (selected_region fs) df_original ;;
  df_filtered_state <- select_stage "Select State" State (selected_state fs) df_filtered_region ;;
  df_filtered_category <-
    select_stage "Select Category" Category (selected_category fs) df_filtered_state ;;
  df <- select_stage_copy "Select Sub-Category" Sub_Category (selected_subcat fs)
          df_filtered_category ;;
  select_stage_copy "Select Segment" Segment (selected_segment fs) df.

(** Lines 76-89: the bounds, then the From Date and the To Date widget. *)
Definition date_widgets (fs : FilterState) (df : ref) : M (Date * Date) :=
  f <- read_frame df ;;
  original <- read_frame df_original ;;
  let '(min_date, max_date) := date_bounds original f in
  from <- date_input min_date min_date max_date (from_date fs) ;;
  to <- date_input max_date min_date max_date (to_date fs) ;;
  ret (from, to).

(** Lines 92-99: the date check and the date mask. *)
Definition date_filter (from to : Date) (df : ref) : M ref :=
  (if from >? to
   then display (SidebarError "From Date must be earlier than To Date.")
   else ret tt) ;;;
  getitem_mask df (date_mask from to).

Section Session.
Variable us_abbr : string -> option string.
Variable sort_values_desc : forall A : Type, (A -> Q) -> list A -> list A.

(** Lines 133-414: the KPI tiles, then the warning or the views. *)
Definition report (selected_kpi : KPI) (df : ref) : M Output :=
  f <- read_frame df ;;
  let kpis := kpi_calculation f in
  if empty f
  then display (Warning "No data available for the selected filters and date range.") ;;;
       ret (mkOutput df kpis None)
  else ch <- chart_phase us_abbr sort_values_desc selected_kpi df ;;
       ret (mkOutput df kpis (Some ch)).

(** The whole script, one run from the loaded table: the selectors, the two
    date widgets, the date filter, the tiles and the views.  The filter
    state holds what the user picks in each widget. *)
Definition session (fs : FilterState) (selected_kpi : KPI) : M Output :=
  df <- selectors fs ;;
  dates <- date_widgets fs df ;;
  df <- date_filter dates.1 dates.2 df ;;
  report selected_kpi df.

End Session.

(** What the sidebar has shown when the date widgets are reached. *)
Definition selectboxes (fs : FilterState) (d : DataFrame) : list UiEvent :=
  [ Selectbox "Select Region" (select_options Region d);
    Selectbox "Select State" (select_options State (after_region fs d));
    Selectbox "Select Category" (select_options Category (after_state fs d));
    Selectbox "Select Sub-Category" (select_options Sub_Category (after_category fs d));
    Selectbox "Select Segment" (select_options Segment (after_subcat fs d)) ].

(** ** The quarterly totals of the trend plot (line 321) *)

(** [rows[selected_kpi].sum()] on rows of a view. *)
Definition sum_metric {K} (kpi : KPI) (rows : list (Agg K)) : Q :=
  match kpi with
  | KSales => sumQ (SumSales <$> rows)
  | KQuantity => inject_Z (sum_int64 (SumQuantity <$> rows))
  | KProfit => sumQ (SumProfit <$> rows)
  | KMarginRate => sumQ (MarginRate <$> rows)
  end.

(** [quarterly_grouped.groupby("Quarter")[selected_kpi].sum().reset_index()]:
    the view is grouped once more by its key and the selected column is
    summed. *)
Definition quarterly_total (kpi : KPI) (view : list (Agg string)) : list (string * Q) :=
  (fun k => (k, sum_metric kpi (filter (fun g => gkey g = k) view)))
    <$> sorted (unique (gkey <$> view)).

(** ** The pivot table of the category trend plot (line 269) *)

(** The cell of a quarter and a category: the value of the selected KPI in
    the row of the view with that key, and 0 (by [fillna(0)]) when the view
    has no such row. *)
Definition pivot_cell (kpi : KPI) (view : list (Agg (string * string))) (q c : string) : Q :=
  match filter (fun g => gkey g = (q, c)) view with
  | g :: _ => metric kpi g
  | [] => 0%Q
  end.

(** [view.pivot(index='Quarter', columns='Category', values=selected_kpi)
    .fillna(0)]: one line per quarter of the view and, in each line, one cell
    per category of the view, both in sorted order.  [None] stands for the
    [ValueError] that [pivot] raises when two rows of the view have the same
    quarter and category. *)
Definition pivot_data (kpi : KPI) (view : list (Agg (string * string)))
  : option (list (string * list (string * Q))) :=
  if decide (NoDup (gkey <$> view))
  then
    let index := sorted (unique ((fun g => (gkey g).1) <$> view)) in
    let columns := sorted (unique ((fun g => (gkey g).2) <$> view)) in
    Some ((fun q => (q, (fun c => (c, pivot_cell kpi view q c)) <$> columns)) <$> index)
  else None.

(** ** Vocabulary for the views *)

(** The design document's [marginRate(sales, profit)], in its words:
    [profit / (sales if sales != 0 else 1)]. *)
Definition spec_marginRate (sales profit : Q) : Q :=
  (profit / (if Qeq_bool sales 0 then 1 else sales))%Q.

(** The row of a view carries that function of its own two sums. *)
Definition follows_policy {K} (g : Agg K) : Prop :=
  MarginRate g = spec_marginRate (SumSales g) (SumProfit g).

(** The margin rate of one row: its Profit divided by its Sales, with a
    Sales of 0 replaced by 1. *)
Definition row_rate (r : Row) : Q :=
  (Profit r / (if Qeq_bool (Sales r) 0 then 1 else Sales r))%Q.

(** The rows of a frame that have a value in the key column(s). *)
Definition keyed {K} (key : Row -> option K) (df : DataFrame) : DataFrame :=
  filter (fun r => is_Some (key r)) df.


(** A row [r1] of [df] at the end of the chart phase, against the row [r0]
    of the filtered frame it comes from: the state is abbreviated when the
    table knows it, three columns are added, nothing else changes. *)
Definition enriched (us_abbr : string -> option string) (r0 r1 : Row) : Prop :=
  Order_Date r1 = Order_Date r0
  /\ Region r1 = Region r0
  /\ Category r1 = Category r0
  /\ Sub_Category r1 = Sub_Category r0
  /\ Segment r1 = Segment r0
  /\ Product_Name r1 = Product_Name r0
  /\ Sales r1 = Sales r0
  /\ Quantity r1 = Quantity r0
  /\ Profit r1 = Profit r0
  /\ (exists s, State r0 = Some s /\ State r1 = Some (default s (us_abbr s)))
  /\ Year r1 = Some (dt_year (Order_Date r0))
  /\ Quarter r1 = Some (quarter_label (Order_Date r0))
  /\ Margin_Rate r1 = Some (margin_rate_of (Sales r0) (Profit r0)).

(** Two rows with the same Sales, Quantity and Profit. *)
Definition same_amounts (r0 r1 : Row) : Prop :=
  Sales r1 = Sales r0 /\ Quantity r1 = Quantity r0 /\ Profit r1 = Profit r0.

(** The rows the object [df] holds when the chart phase stops: with the
    three added columns and the abbreviated states when it ends normally,
    with the Year column only when the state abbreviation raises. *)
Definition frame_after_charts (us_abbr : string -> option string) (f : DataFrame)
  : DataFrame :=
  match try_map (abbreviate us_abbr) (with_year f) with
  | Ok f2 => with_margin_rate (with_quarter f2)
  | Raised _ => with_year f
  end.


(** A pick of [wide] is the pick of [narrow] or ["All"]. *)
Definition relaxes (wide narrow : string) : Prop := wide = narrow \/ wide = "All"%string.

(** The filter state [wide] asks for no more than [tight]: each pick is the
    same or ["All"], and the date range is at least as large. *)
Definition relaxed (wide tight : FilterState) : Prop :=
  relaxes (selected_region wide) (selected_region tight)
  /\ relaxes (selected_state wide) (selected_state tight)
  /\ relaxes (selected_category wide) (selected_category tight)
  /\ relaxes (selected_subcat wide) (selected_subcat tight)
  /\ relaxes (selected_segment wide) (selected_segment tight)
  /\ from_date wide <= from_date tight
  /\ to_date tight <= to_date wide.

(** ** Sample data *)

(** A one-row table: no sales, a profit of 5 (a returned item, say). *)
Definition zero_sales_row : Row :=
  mkRow (to_datetime 16860) (Some "East") (Some "New York") (Some "Furniture")
        (Some "Chairs") (Some "Consumer") (Some "Chair A") 0 1 5 None None None.

Definition no_filter (from to : Date) : FilterState :=
  mkFilterState "All" "All" "All" "All" "All" from to.

Definition sample_rows : DataFrame :=
  [ mkRow (to_datetime 16860) (Some "East") (Some "New York") (Some "Furniture")
          (Some "Chairs") (Some "Consumer") (Some "Chair A") 100 2 20 None None None;
    mkRow (to_datetime 16861) (Some "West") (Some "California") (Some "Technology")
          (Some "Phones") (Some "Corporate") (Some "Phone B") 50 1 (-10) None None None;
    mkRow (to_datetime 17000) (Some "West") (Some "Oregon") (Some "Technology")
          (Some "Phones") (Some "Consumer") (Some "Phone B") 0 3 5 None None None ].

(** Region West, Segment Consumer, a date range that holds every sample row. *)
Definition west_consumer : FilterState :=
  mkFilterState "West" "All" "All" "All" "Consumer" 16000 18000.

(** From Date after To Date. *)
Definition inverted_dates : FilterState :=
  mkFilterState "All" "All" "All" "All" "All" 18000 16000.


(** Two Furniture rows of the first quarter of 2016. *)
Definition two_chairs : DataFrame :=
  [ mkRow (to_datetime 16860) (Some "East") (Some "New York") (Some "Furniture")
          (Some "Chairs") (Some "Consumer") (Some "Chair A") 100 2 20 None None None;
    mkRow (to_datetime 16861) (Some "West") (Some "California") (Some "Furniture")
          (Some "Chairs") (Some "Corporate") (Some "Chair B") 50 2 (-10) None None None ].

(** A row whose State cell is missing. *)
Definition stateless_row : Row :=
  mkRow (to_datetime 16860) (Some "East") None (Some "Furniture")
        (Some "Chairs") (Some "Consumer") (Some "Chair A") 100 2 20 None None None.

(** The West, Consumer picks with both date widgets left untouched. *)
Definition west_consumer_default : FilterState :=
  mkFilterState "West" "All" "All" "All" "Consumer" 17000 17000.

(** Two rows; the cell Product Name of the second is missing. *)
Definition unnamed_product_rows : DataFrame :=
  [ mkRow (to_datetime 16860) (Some "East") (Some "New York") (Some "Furniture")
          (Some "Chairs") (Some "Consumer") (Some "Chair A") 100 2 20 None None None;
    mkRow (to_datetime 16861) (Some "West") (Some "California") (Some "Furniture")
          (Some "Chairs") (Some "Corporate") None 50 4 (-10) None None None ].

(** Two Furniture rows of the first quarter of 2016, both sold at cost. *)
Definition break_even_chairs : DataFrame :=
  [ mkRow (to_datetime 16860) (Some "East") (Some "New York") (Some "Furniture")
          (Some "Chairs") (Some "Consumer") (Some "Chair A") 100 2 0 None None None;
    mkRow (to_datetime 16861) (Some "West") (Some "California") (Some "Furniture")
          (Some "Chairs") (Some "Corporate") (Some "Chair B") 50 2 0 None None None ].

(** Two Furniture rows of the first quarter of 2016: one with Sales 0 and
    Profit 5, one with Sales 4 and Profit 1. *)
Definition refund_and_sale : DataFrame :=
  [ mkRow (to_datetime 16860) (Some "East") (Some "New York") (Some "Furniture")
          (Some "Chairs") (Some "Consumer") (Some "Chair A") 0 1 5 None None None;
    mkRow (to_datetime 16861) (Some "West") (Some "California") (Some "Furniture")
          (Some "Chairs") (Some "Corporate") (Some "Chair B") 4 2 1 None None None ].

(** A table of twelve products, one row each, with Sales 10, 20, ..., 120
    in the order of the names. *)
Definition product_row (name : string) (sales : Q) (quantity : Z) (profit : Q) : Row :=
  mkRow (to_datetime 16860) (Some "East") (Some "New York") (Some "Furniture")
        (Some "Chairs") (Some "Consumer") (Some name) sales quantity profit None None None.

Definition twelve_products : DataFrame :=
  [ product_row "P01" 10 1 1; product_row "P02" 20 1 1; product_row "P03" 30 1 1;
    product_row "P04" 40 1 1; product_row "P05" 50 1 1; product_row "P06" 60 1 1;
    product_row "P07" 70 1 1; product_row "P08" 80 1 1; product_row "P09" 90 1 1;
    product_row "P10" 100 1 1; product_row "P11" 110 1 1; product_row "P12" 120 1 1 ].

(** * Properties *)

(** ** The script on the scenarios of the design document *)

(** Two rows, East (Sales 100, Profit 20) and West (Sales 50, Profit -10),
    no filter: Sales 150, Profit 10, Margin Rate 10/150. *)
Example scenario_no_filter :
  exists out w,
    script us_abbr_sample stable_sort_desc (no_filter 16000 18000) KSales (loaded two_chairs)
    = (Ok out, w)
    /\ (total_sales (out_kpis out) == 150)%Q
    /\ (total_profit (out_kpis out) == 10)%Q
    /\ (margin_rate (out_kpis out) == 10 / 150)%Q.
Proof. eexists _, _. split; [vm_compute; reflexivity|]. by repeat split. Qed.

(** Region East leaves the first row: Sales 100, Profit 20, Margin Rate 0.2,
    and the State selector offers the states of the East rows only. *)
Example scenario_east :
  exists out w,
    script us_abbr_sample stable_sort_desc
           (mkFilterState "East" "All" "All" "All" "All" 16000 18000) KSales
           (loaded two_chairs) = (Ok out, w)
    /\ (total_sales (out_kpis out) == 100)%Q
    /\ (total_profit (out_kpis out) == 20)%Q
    /\ (margin_rate (out_kpis out) == 2 / 10)%Q
    /\ ui w !! 1%nat = Some (Selectbox "Select State" ["All"; "New York"]%string).
Proof. eexists _, _. split; [vm_compute; reflexivity|]. by repeat split. Qed.

(** A missing State cell in the filtered frame stops the run at the state
    abbreviation, after the year column was written. *)
Example missing_state_raises :
  exists w,
    script us_abbr_sample stable_sort_desc (no_filter 16000 18000) KSales
           (loaded [stateless_row]) = (Raised TypeError, w)
    /\ frames w !! df_original = Some [stateless_row]
    /\ frames w !! 3%nat = Some [set_Year 2016 stateless_row].
Proof. eexists. split; [vm_compute; reflexivity|]. by split. Qed.

(** ** Calendar, [unique] and [sorted] on examples *)

Example civil_epoch : civil_of_days 0 = (1970, 1, 1).
Proof. reflexivity. Qed.

Example civil_leap_day : civil_of_days 16860 = (2016, 2, 29).
Proof. reflexivity. Qed.

Example quarter_label_2016 :
  quarter_label (to_datetime 16860) = "2016Q1"%string
  /\ quarter_label (to_datetime 17166) = "2016Q4"%string.
Proof. split; reflexivity. Qed.

Example unique_first_occurrence : unique [3; 1; 3; 2; 1] = [3; 1; 2].
Proof. reflexivity. Qed.

Example sorted_strings :
  sorted ["West"; "East"; "Central"]%string = ["Central"; "East"; "West"]%string.
Proof. reflexivity. Qed.


(** ** Sums *)

Lemma wrap_int64_add_r (x y : Z) : wrap_int64 (x + wrap_int64 y) = wrap_int64 (x + y).
Proof.
  unfold wrap_int64. f_equal.
  replace (x + ((y + 2 ^ 63) mod 2 ^ 64 - 2 ^ 63) + 2 ^ 63)
    with (x + (y + 2 ^ 63) mod 2 ^ 64) by ring.
  rewrite Zplus_mod_idemp_r. f_equal. ring.
Qed.

(** Wrapping at every step is wrapping the exact sum once. *)
Lemma sum_int64_exact (l : list Z) : sum_int64 l = wrap_int64 (foldr Z.add 0 l).
Proof.
  induction l as [|x l IH]; [reflexivity|].
  change (sum_int64 (x :: l)) with (wrap_int64 (x + sum_int64 l)).
  rewrite IH. apply wrap_int64_add_r.
Qed.

Lemma sum_int64_of_wrapped (l : list Z) :
  sum_int64 (wrap_int64 <$> l) = sum_int64 l.
Proof.
  rewrite !sum_int64_exact.
  induction l as [|x l IH]; [reflexivity|].
  cbn [fmap list_fmap foldr].
  rewrite <- wrap_int64_add_r, IH, wrap_int64_add_r.
  rewrite (Z.add_comm (wrap_int64 x)), wrap_int64_add_r.
  f_equal. ring.
Qed.

(** Sums over groups, for any commutative monoid of cell values. *)
Section GroupSums.
Context {V : Type} (eqV : relation V) (add : V -> V -> V) (zero : V).
Context (eqV_equiv : Equivalence eqV).
Context (add_proper : Proper (eqV ==> eqV ==> eqV) add).
Context (add_assoc : forall a b c, eqV (add a (add b c)) (add (add a b) c)).
Context (add_comm : forall a b, eqV (add a b) (add b a)).
Context (add_zero_l : forall a, eqV (add zero a) a).

Local Abbreviation total := (total add zero).

Lemma total_zeros {K} (ks : list K) : eqV (total ((fun _ => zero) <$> ks)) zero.
Proof.
  induction ks as [|k ks IH]; [reflexivity|].
  cbn. rewrite IH. apply add_zero_l.
Qed.

Lemma total_ext {K} (g h : K -> V) (ks : list K) :
  (forall k, eqV (g k) (h k)) -> eqV (total (g <$> ks)) (total (h <$> ks)).
Proof.
  intros Hgh. induction ks as [|k ks IH]; [reflexivity|].
  cbn. apply add_proper; [apply Hgh | apply IH].
Qed.

Lemma total_add_pointwise {K} (g h : K -> V) (ks : list K) :
  eqV (total ((fun k => add (g k) (h k)) <$> ks))
      (add (total (g <$> ks)) (total (h <$> ks))).
Proof.
  induction ks as [|k ks IH].
  - cbn. symmetry. apply add_zero_l.
  - cbn. fold (total (g <$> ks)) (total (h <$> ks)). rewrite IH.
    rewrite <- !add_assoc. apply add_proper; [reflexivity|].
    rewrite !add_assoc. apply add_proper; [apply add_comm | reflexivity].
Qed.

(** A value put at one key of a duplicate-free key list counts once. *)
Lemma total_indicator {K} `{EqDecision K} (k0 : K) (a : V) (ks : list K) :
  NoDup ks -> k0 ∈ ks ->
  eqV (total ((fun k => if decide (k = k0) then a else zero) <$> ks)) a.
Proof.
  induction 1 as [|k ks Hk Hnd IH]; intros Hin.
  - by apply elem_of_nil in Hin.
  - cbn. destruct (decide (k = k0)) as [->|Hne].
    + assert (Hz : eqV (total ((fun k => if decide (k = k0) then a else zero) <$> ks)) zero).
      { clear IH Hin Hnd. induction ks as [|k ks IH]; [reflexivity|].
        cbn. apply not_elem_of_cons in Hk as [Hk0 Hk].
        destruct (decide (k = k0)); [congruence|].
        rewrite (IH Hk). apply add_zero_l. }
      rewrite Hz, add_comm. apply add_zero_l.
    + apply elem_of_cons in Hin as [->|Hin]; [congruence|].
      rewrite (IH Hin). apply add_zero_l.
Qed.

(** The groups of a duplicate-free key list that covers every row
    partition the column. *)
Lemma total_groups {K} `{EqDecision K}
    (v : Row -> V) (key : Row -> option K) (ks : list K) (df : DataFrame) :
  NoDup ks ->
  (forall r, r ∈ df -> exists k, key r = Some k /\ k ∈ ks) ->
  eqV (total ((fun k => total (v <$> filter (fun r => key r = Some k) df)) <$> ks))
      (total (v <$> df)).
Proof.
  intros Hnd. induction df as [|r df IH]; intros Hcov.
  - cbn. apply total_zeros.
  - destruct (Hcov r) as (k0 & Hk0 & Hin); [left|].
    assert (Hstep : forall k,
      eqV (total (v <$> filter (fun r => key r = Some k) (r :: df)))
          (add (if decide (k = k0) then v r else zero)
               (total (v <$> filter (fun r => key r = Some k) df)))).
    { intros k. rewrite filter_cons.
      destruct (decide (key r = Some k)) as [E|E]; destruct (decide (k = k0)) as [E'|E'].
      - reflexivity.
      - congruence.
      - subst. congruence.
      - symmetry. apply add_zero_l. }
    rewrite (total_ext _ _ ks Hstep).
    rewrite total_add_pointwise, total_indicator by done.
    cbn. apply add_proper; [reflexivity|].
    apply IH. intros r' Hr'. apply Hcov. by right.
Qed.
End GroupSums.

(** ** [unique], [sorted] and the keys of a grouping *)

Lemma elem_of_unique {A} `{EqDecision A} (x : A) (l : list A) : x ∈ unique l <-> x ∈ l.
Proof.
  induction l as [|y l IH]; [reflexivity|].
  cbn. rewrite !elem_of_cons, list_elem_of_filter, IH.
  destruct (decide (x = y)); tauto.
Qed.

Lemma NoDup_unique {A} `{EqDecision A} (l : list A) : NoDup (unique l).
Proof.
  induction l as [|y l IH]; cbn; [constructor|].
  constructor.
  - rewrite list_elem_of_filter. intros [Hne _]. by apply Hne.
  - by apply NoDup_filter.
Qed.

Lemma sorted_Permutation {K} `{Ord K} (l : list K) : sorted l ≡ₚ l.
Proof. apply merge_sort_Permutation. Qed.

Lemma elem_of_sorted {K} `{Ord K} (x : K) (l : list K) : x ∈ sorted l <-> x ∈ l.
Proof. by rewrite sorted_Permutation. Qed.

Lemma NoDup_sorted {K} `{Ord K} (l : list K) : NoDup l -> NoDup (sorted l).
Proof. by rewrite sorted_Permutation. Qed.

Lemma elem_of_dropna {A} (col : Row -> option A) (df : DataFrame) (a : A) :
  a ∈ dropna col df <-> exists r, r ∈ df /\ col r = Some a.
Proof. apply list_elem_of_omap. Qed.

Lemma NoDup_group_keys {K} `{EqDecision K, Ord K} (key : Row -> option K) (df : DataFrame) :
  NoDup (group_keys key df).
Proof. apply NoDup_sorted, NoDup_unique. Qed.

Lemma elem_of_group_keys {K} `{EqDecision K, Ord K}
    (key : Row -> option K) (df : DataFrame) (k : K) :
  k ∈ group_keys key df <-> exists r, r ∈ df /\ key r = Some k.
Proof. unfold group_keys. by rewrite elem_of_sorted, elem_of_unique, elem_of_dropna. Qed.

Lemma grouped_view_length {K} `{EqDecision K, Ord K} (key : Row -> option K) (df : DataFrame) :
  length (grouped_view key df) = length (group_keys key df).
Proof. unfold grouped_view, groupby, group_keys. by rewrite !length_fmap. Qed.

Lemma grouped_view_keys {K} `{EqDecision K, Ord K} (key : Row -> option K) (df : DataFrame) :
  gkey <$> grouped_view key df = group_keys key df.
Proof.
  unfold grouped_view, groupby, group_keys. rewrite <- !list_fmap_compose.
  apply list_fmap_id.
Qed.

(** ** What one run of the script leaves in the store *)

Lemma bind_ok {A B} (m : M A) (k : A -> M B) (w w' : World) (a : A) :
  m w = (Ok a, w') -> bind m k w = k a w'.
Proof. unfold bind. by intros ->. Qed.

Lemma bind_raised {A B} (m : M A) (k : A -> M B) (w w' : World) (e : Exn) :
  m w = (Raised e, w') -> bind m k w = (Raised e, w').
Proof. unfold bind. by intros ->. Qed.

Lemma bind_assoc {A B C} (m : M A) (f : A -> M B) (g : B -> M C) (w : World) :
  bind (bind m f) g w = bind m (fun x => bind (f x) g) w.
Proof. unfold bind. by destruct (m w) as [[a|e] w']. Qed.

Lemma bind_congr {A B} (m m' : M A) (k : A -> M B) (w : World) :
  m w = m' w -> bind m k w = bind m' k w.
Proof. unfold bind. by intros ->. Qed.

Lemma new_frame_holds d w r f shown g :
  holds d w r f shown ->
  exists r' w', new_frame g w = (Ok r', w') /\ r' <> df_original /\ holds d w' r' g shown.
Proof.
  intros (H0 & Hr & Hui). eexists _, _. split; [reflexivity|].
  repeat split; cbn [frames ui].
  - apply lookup_lt_Some in H0. unfold df_original. lia.
  - by apply lookup_app_l_Some.
  - by rewrite lookup_app_r, Nat.sub_diag.
  - done.
Qed.

Lemma read_frame_holds d w r f shown :
  holds d w r f shown -> read_frame r w = (Ok f, w).
Proof. intros (_ & Hr & _). unfold read_frame. by rewrite Hr. Qed.

(** Run the first step of a sequence, given what it returns. *)
Ltac step E := rewrite (bind_ok _ _ _ _ _ E).
Ltac step_read H := rewrite (bind_ok _ _ _ _ _ (read_frame_holds _ _ _ _ _ H)).

Lemma getitem_mask_holds d w r f shown mask :
  holds d w r f shown ->
  exists r' w',
    getitem_mask r mask w = (Ok r', w') /\ r' <> df_original
    /\ holds d w' r' (filter (fun x => mask x) f) shown.
Proof.
  intros H.
  destruct (new_frame_holds d w r f shown (filter (fun x => mask x) f) H)
    as (r' & w' & Hnew & Hne & Hh).
  exists r', w'. split; [|done].
  unfold getitem_mask. by step_read H.
Qed.

Lemma copy_holds d w r f shown :
  holds d w r f shown ->
  exists r' w', copy r w = (Ok r', w') /\ r' <> df_original /\ holds d w' r' f shown.
Proof.
  intros H.
  destruct (new_frame_holds d w r f shown f H) as (r' & w' & Hnew & Hne & Hh).
  exists r', w'. split; [|done].
  unfold copy. by step_read H.
Qed.

Lemma select_stage_holds d w r f shown label col pick :
  holds d w r f shown ->
  exists r' w',
    select_stage label col pick r w = (Ok r', w')
    /\ (r <> df_original -> r' <> df_original)
    /\ holds d w' r' (narrow col pick f) (shown ++ [Selectbox label (select_options col f)]).
Proof.
  intros (H0 & Hr & Hui). unfold select_stage, narrow.
  set (w1 := mkWorld (frames w) (ui w ++ [Selectbox label (select_options col f)])).
  assert (H1 : holds d w1 r f (shown ++ [Selectbox label (select_options col f)])).
  { repeat split; cbn; congruence. }
  assert (Hstep : forall k : M ref,
    (f0 <- read_frame r ;; display (Selectbox label (select_options col f0)) ;;; k) w = k w1).
  { intros k. unfold bind, read_frame, display. cbv beta iota. by rewrite Hr. }
  rewrite Hstep. destruct (negb (is_All pick)).
  - destruct (getitem_mask_holds d w1 r f _ (eq_mask col pick) H1)
      as (r' & w' & Hnew & Hne & Hh).
    by exists r', w'.
  - by exists r, w1.
Qed.

Lemma select_stage_copy_holds d w r f shown label col pick :
  holds d w r f shown ->
  exists r' w',
    select_stage_copy label col pick r w = (Ok r', w')
    /\ r' <> df_original
    /\ holds d w' r' (narrow col pick f) (shown ++ [Selectbox label (select_options col f)]).
Proof.
  intros (H0 & Hr & Hui). unfold select_stage_copy, narrow.
  set (w1 := mkWorld (frames w) (ui w ++ [Selectbox label (select_options col f)])).
  assert (H1 : holds d w1 r f (shown ++ [Selectbox label (select_options col f)])).
  { repeat split; cbn; congruence. }
  assert (Hstep : forall k : M ref,
    (f0 <- read_frame r ;; display (Selectbox label (select_options col f0)) ;;; k) w = k w1).
  { intros k. unfold bind, read_frame, display. cbv beta iota. by rewrite Hr. }
  rewrite Hstep. clear Hstep.
  destruct (copy_holds d w1 r f _ H1) as (r2 & w2 & Hcopy & Hne & H2).
  step Hcopy.
  destruct (negb (is_All pick)).
  - destruct (getitem_mask_holds d w2 r2 f _ (eq_mask col pick) H2)
      as (r' & w' & Hnew' & Hne' & Hh).
    by exists r', w'.
  - by exists r2, w2.
Qed.

Lemma filter_phase_run (fs : FilterState) (d : DataFrame) :
  exists (r : ref) (w : World),
    filter_phase fs (loaded d) = (Ok r, w)
    /\ r <> df_original
    /\ holds d w r (apply_filters fs d) (sidebar fs d).
Proof.
  unfold filter_phase.
  assert (H0 : holds d (loaded d) df_original d []) by done.
  destruct (select_stage_holds d _ _ _ _ "Select Region" Region (selected_region fs) H0)
    as (r1 & w1 & E1 & _ & H1).
  step E1.
  destruct (select_stage_holds d _ _ _ _ "Select State" State (selected_state fs) H1)
    as (r2 & w2 & E2 & _ & H2).
  step E2.
  destruct (select_stage_holds d _ _ _ _ "Select Category" Category (selected_category fs) H2)
    as (r3 & w3 & E3 & _ & H3).
  step E3.
  destruct (select_stage_copy_holds d _ _ _ _ "Select Sub-Category" Sub_Category
              (selected_subcat fs) H3) as (r4 & w4 & E4 & _ & H4).
  step E4.
  destruct (select_stage_copy_holds d _ _ _ _ "Select Segment" Segment
              (selected_segment fs) H4) as (r5 & w5 & E5 & _ & H5).
  step E5.
  set (msg := SidebarError "From Date must be earlier than To Date.").
  set (w6 := if from_date fs >? to_date fs then mkWorld (frames w5) (ui w5 ++ [msg]) else w5).
  assert (E6 : (if from_date fs >? to_date fs then display msg else ret tt) w5 = (Ok tt, w6)).
  { unfold w6. by destruct (from_date fs >? to_date fs). }
  step E6.
  assert (H6 : holds d w6 r5 (after_segment fs d) (sidebar fs d)).
  { destruct H5 as (H50 & H5r & H5u). unfold w6, sidebar.
    destruct (from_date fs >? to_date fs); (split; [done|split; [done|]]);
      cbn [ui]; rewrite H5u; [reflexivity | by rewrite app_nil_r]. }
  destruct (getitem_mask_holds d w6 r5 _ _ (date_mask (from_date fs) (to_date fs)) H6)
    as (r' & w' & Hnew & Hne & Hh).
  by exists r', w'.
Qed.

Lemma write_frame_holds d w r f shown g :
  holds d w r f shown -> r <> df_original ->
  exists w', write_frame r g w = (Ok tt, w') /\ holds d w' r g shown.
Proof.
  intros (H0 & Hr & Hui) Hne. eexists. split; [reflexivity|].
  repeat split; cbn [frames ui]; [| |done].
  - by rewrite list_lookup_insert_ne.
  - apply list_lookup_insert_eq. by apply lookup_lt_Some in Hr.
Qed.

Lemma setitem_holds d w r f shown upd :
  holds d w r f shown -> r <> df_original ->
  exists w', setitem r upd w = (Ok tt, w') /\ holds d w' r (upd <$> f) shown.
Proof.
  intros H Hne.
  destruct (write_frame_holds d w r f shown (upd <$> f) H Hne) as (w' & Hw & Hh).
  exists w'. split; [|done].
  unfold setitem. by step_read H.
Qed.

Lemma setitem_try_holds d w r f shown upd :
  holds d w r f shown -> r <> df_original ->
  match try_map upd f with
  | Raised e => setitem_try r upd w = (Raised e, w)
  | Ok f' => exists w', setitem_try r upd w = (Ok tt, w') /\ holds d w' r f' shown
  end.
Proof.
  intros H Hne. unfold setitem_try.
  step_read H.
  destruct (try_map upd f) as [f'|e]; [|reflexivity].
  apply (write_frame_holds d w r f shown f' H Hne).
Qed.

Section DashboardRun.
Variable us_abbr : string -> option string.
Variable sort_values_desc : forall A : Type, (A -> Q) -> list A -> list A.

Lemma chart_phase_run (kpi : KPI) d w r f shown :
  holds d w r f shown -> r <> df_original ->
  exists w',
    chart_phase us_abbr sort_values_desc kpi r w = (charts_result us_abbr sort_values_desc kpi f, w')
    /\ frames w' !! df_original = Some d /\ ui w' = shown.
Proof.
  intros H Hne. unfold chart_phase, charts_result.
  step_read H.
  destruct (setitem_holds d w r f shown
              (fun r => set_Year (dt_year (Order_Date r)) r) H Hne) as (w1 & E1 & H1).
  step E1.
  step_read H1.
  pose proof (setitem_try_holds d w1 r _ shown (abbreviate us_abbr) H1 Hne) as Htry.
  fold (with_year f) in Htry |- *.
  destruct (try_map (abbreviate us_abbr) (with_year f)) as [f2|e].
  - destruct Htry as (w2 & E2 & H2).
    step E2.
    step_read H2.
    destruct (setitem_holds d w2 r f2 shown
                (fun r => set_Order_Date (Order_Date r) r) H2 Hne) as (w3 & E3 & H3).
    step E3.
    destruct (setitem_holds d w3 r _ shown
                (fun r => set_Quarter (quarter_label (Order_Date r)) r) H3 Hne)
      as (w4 & E4 & H4).
    step E4.
    step_read H4.
    destruct (setitem_holds d w4 r _ shown
                (fun r => set_Margin_Rate (margin_rate_of (Sales r) (Profit r)) r) H4 Hne)
      as (w5 & E5 & H5).
    step E5.
    step_read H5.
    exists w5. destruct H5 as (H50 & _ & H5u). by repeat split.
  - rewrite (bind_raised _ _ _ _ _ Htry).
    exists w1. destruct H1 as (H10 & _ & H1u). by repeat split.
Qed.

Lemma script_run (fs : FilterState) (kpi : KPI) (d : DataFrame) :
  exists (r : ref) (w : World),
    script us_abbr sort_values_desc fs kpi (loaded d)
    = (script_result us_abbr sort_values_desc fs kpi d r, w)
    /\ r <> df_original
    /\ frames w !! df_original = Some d
    /\ (empty (apply_filters fs d) = true -> frames w !! r = Some (apply_filters fs d))
    /\ ui w = sidebar fs d ++ (if empty (apply_filters fs d) then [no_data] else []).
Proof.
  destruct (filter_phase_run fs d) as (r & w & E & Hne & H).
  exists r. unfold script, script_result.
  step E.
  step_read H.
  destruct (empty (apply_filters fs d)).
  - eexists. split; [reflexivity|]. destruct H as (H0 & Hr & Hu).
    cbn [frames ui]. by rewrite Hu.
  - destruct (chart_phase_run kpi d w r _ _ H Hne) as (w' & E' & H0' & Hu').
    exists w'. rewrite app_nil_r. split; [|done].
    unfold bind. rewrite E'.
    by destruct (charts_result us_abbr sort_values_desc kpi (apply_filters fs d)).
Qed.
End DashboardRun.

(** ** The outcome of a run *)

(** A run either ends with the KPIs of the filtered frame and, unless that
    frame is empty, the views; or it raises, which only the state
    abbreviation can do. *)
Lemma script_outcome
    (us_abbr : string -> option string)
    (sort_values_desc : forall A : Type, (A -> Q) -> list A -> list A)
    (fs : FilterState) (kpi : KPI) (d : DataFrame) :
  let f := apply_filters fs d in
  match script us_abbr sort_values_desc fs kpi (loaded d) with
  | (Ok out, _) =>
      out_kpis out = kpi_calculation f
      /\ match out_charts out with
         | None => f = []
         | Some ch =>
             f <> [] /\ exists f2, try_map (abbreviate us_abbr) (with_year f) = Ok f2
                                  /\ ch = charts_of sort_values_desc kpi f f2
         end
  | (Raised e, _) => f <> [] /\ try_map (abbreviate us_abbr) (with_year f) = Raised e
  end.
Proof.
  intros f.
  destruct (script_run us_abbr sort_values_desc fs kpi d) as (r & w & -> & _).
  unfold script_result, charts_result. fold f.
  destruct f as [|row f'] eqn:Ef; cbn [empty]; [done|].
  destruct (try_map (abbreviate us_abbr) (with_year (row :: f'))) as [f2|e];
    cbn [out_kpis out_charts]; [|done].
  split; [done|]. split; [done|]. by exists f2.
Qed.

(** ** The run with its date widgets *)

Lemma selectors_run (fs : FilterState) (d : DataFrame) :
  exists (r : ref) (w : World),
    selectors fs (loaded d) = (Ok r, w)
    /\ r <> df_original
    /\ holds d w r (after_segment fs d) (selectboxes fs d).
Proof.
  unfold selectors.
  assert (H0 : holds d (loaded d) df_original d []) by done.
  destruct (select_stage_holds d _ _ _ _ "Select Region" Region (selected_region fs) H0)
    as (r1 & w1 & E1 & _ & H1).
  step E1.
  destruct (select_stage_holds d _ _ _ _ "Select State" State (selected_state fs) H1)
    as (r2 & w2 & E2 & _ & H2).
  step E2.
  destruct (select_stage_holds d _ _ _ _ "Select Category" Category (selected_category fs) H2)
    as (r3 & w3 & E3 & _ & H3).
  step E3.
  destruct (select_stage_copy_holds d _ _ _ _ "Select Sub-Category" Sub_Category
              (selected_subcat fs) H3) as (r4 & w4 & E4 & _ & H4).
  step E4.
  destruct (select_stage_copy_holds d _ _ _ _ "Select Segment" Segment
              (selected_segment fs) H4) as (r5 & w5 & E5 & Hne & H5).
  by exists r5, w5.
Qed.

(** [filter_phase] is the selectors followed by the date filter. *)
Lemma filter_phase_split (fs : FilterState) (w : World) :
  filter_phase fs w
  = (df <- selectors fs ;; date_filter (from_date fs) (to_date fs) df) w.
Proof.
  unfold filter_phase, selectors, date_filter, bind.
  destruct (select_stage "Select Region" Region (selected_region fs) df_original w)
    as [[r1|e] w1]; [|reflexivity].
  destruct (select_stage "Select State" State (selected_state fs) r1 w1)
    as [[r2|e] w2]; [|reflexivity].
  destruct (select_stage "Select Category" Category (selected_category fs) r2 w2)
    as [[r3|e] w3]; [|reflexivity].
  destruct (select_stage_copy "Select Sub-Category" Sub_Category (selected_subcat fs) r3 w3)
    as [[r4|e] w4]; [|reflexivity].
  destruct (select_stage_copy "Select Segment" Segment (selected_segment fs) r4 w4)
    as [[r5|e] w5]; reflexivity.
Qed.

Lemma date_bounds_some (original df : DataFrame) :
  original <> [] -> exists lo hi, date_bounds original df = (Some lo, Some hi).
Proof.
  intros Ho. unfold date_bounds.
  destruct df as [|r f]; cbn [empty]; [destruct original as [|r o]; [done|]|];
    cbn; eauto.
Qed.

Lemma narrow_nil (col : Row -> option string) (pick : string) : narrow col pick [] = [].
Proof. unfold narrow. by destruct (negb (is_All pick)). Qed.

Lemma after_segment_nil (fs : FilterState) : after_segment fs [] = [].
Proof.
  unfold after_segment, after_subcat, after_category, after_state, after_region.
  by rewrite !narrow_nil.
Qed.

Section SessionRun.
Variable us_abbr : string -> option string.
Variable sort_values_desc : forall A : Type, (A -> Q) -> list A -> list A.

(** On a table with rows both widgets are rendered, and the run is the run
    of [script] for the two dates the user picks. *)
Lemma session_script (fs : FilterState) (kpi : KPI) (d : DataFrame) :
  d <> [] ->
  session us_abbr sort_values_desc fs kpi (loaded d)
  = script us_abbr sort_values_desc fs kpi (loaded d).
Proof.
  intros Hd. destruct (selectors_run fs d) as (r & w & E & Hne & H).
  assert (Hr0 : read_frame df_original w = (Ok d, w)).
  { destruct H as (H0 & _). unfold read_frame. by rewrite H0. }
  assert (Ew : date_widgets fs r w = (Ok (from_date fs, to_date fs), w)).
  { unfold date_widgets. step_read H. step Hr0.
    by destruct (date_bounds_some d (after_segment fs d) Hd) as (lo & hi & ->). }
  unfold session. step E. step Ew. cbn [fst snd].
  unfold script.
  rewrite (bind_congr _ _ _ _ (filter_phase_split fs (loaded d))), bind_assoc.
  by step E.
Qed.

(** On a table without rows the From Date widget raises, after the five
    selectboxes and before anything else is shown or computed. *)
Lemma session_empty_table (fs : FilterState) (kpi : KPI) :
  exists w : World,
    session us_abbr sort_values_desc fs kpi (loaded []) = (Raised ValueError, w)
    /\ frames w !! df_original = Some []
    /\ ui w = selectboxes fs [].
Proof.
  destruct (selectors_run fs []) as (r & w & E & Hne & H).
  assert (Hr0 : read_frame df_original w = (Ok [], w)).
  { destruct H as (H0 & _). unfold read_frame. by rewrite H0. }
  exists w. split; [|by destruct H as (? & ? & ?)].
  unfold session. step E. apply bind_raised.
  unfold date_widgets. step_read H. step Hr0.
  by rewrite after_segment_nil.
Qed.

Lemma session_cases (fs : FilterState) (kpi : KPI) (d : DataFrame) :
  (d <> [] /\ session us_abbr sort_values_desc fs kpi (loaded d)
              = script us_abbr sort_values_desc fs kpi (loaded d))
  \/ (d = [] /\ exists w : World,
        session us_abbr sort_values_desc fs kpi (loaded d) = (Raised ValueError, w)
        /\ frames w !! df_original = Some d
        /\ ui w = selectboxes fs d).
Proof.
  destruct d as [|row d].
  - right. split; [done|]. apply session_empty_table.
  - left. split; [done|]. by apply session_script.
Qed.

(** A run from the loaded table either ends with the KPIs of the filtered
    frame and, unless that frame is empty, the views; or it raises: the
    [ValueError] of the date widget when the table has no row, or what the
    state abbreviation raises. *)
Lemma session_outcome (fs : FilterState) (kpi : KPI) (d : DataFrame) :
  let f := apply_filters fs d in
  match session us_abbr sort_values_desc fs kpi (loaded d) with
  | (Ok out, _) =>
      d <> []
      /\ out_kpis out = kpi_calculation f
      /\ match out_charts out with
         | None => f = []
         | Some ch =>
             f <> [] /\ exists f2, try_map (abbreviate us_abbr) (with_year f) = Ok f2
                                  /\ ch = charts_of sort_values_desc kpi f f2
         end
  | (Raised e, _) =>
      (d = [] /\ e = ValueError)
      \/ (f <> [] /\ try_map (abbreviate us_abbr) (with_year f) = Raised e)
  end.
Proof.
  intros f. destruct (session_cases fs kpi d) as [[Hd ->] | [Hd (w & -> & _)]].
  - pose proof (script_outcome us_abbr sort_values_desc fs kpi d) as Hout.
    cbv zeta in Hout. fold f in Hout.
    destruct (script us_abbr sort_values_desc fs kpi (loaded d)) as [[out|e] w].
    + by destruct Hout.
    + by right.
  - by left.
Qed.
End SessionRun.

(** ** The sample sorting routines *)

Lemma insert_desc_perm {A} (m : A -> Q) (x : A) (l : list A) : insert_desc m x l ≡ₚ x :: l.
Proof.
  induction l as [|y l IH]; [done|]. cbn.
  destruct (Qle_bool (m y) (m x)); [done|].
  rewrite IH. apply perm_swap.
Qed.

Lemma insert_desc_behind_perm {A} (m : A -> Q) (x : A) (l : list A) :
  insert_desc_behind m x l ≡ₚ x :: l.
Proof.
  induction l as [|y l IH]; [done|]. cbn.
  destruct (Qle_bool (m x) (m y)); [|done].
  rewrite IH. apply perm_swap.
Qed.

Lemma Qle_bool_false (x y : Q) : Qle_bool x y = false -> (y <= x)%Q.
Proof.
  intros E. apply Qlt_le_weak, Qnot_le_lt. intros Hle.
  apply Qle_bool_iff in Hle. congruence.
Qed.

Lemma insert_desc_sorted {A} (m : A -> Q) (x : A) (l : list A) :
  Sorted (desc m) l -> Sorted (desc m) (insert_desc m x l).
Proof.
  induction 1 as [|y l Hs IH Hhd]; cbn; [by repeat constructor|].
  destruct (Qle_bool (m y) (m x)) eqn:E.
  - constructor; [by constructor|]. constructor. by apply Qle_bool_iff.
  - constructor; [done|].
    destruct Hhd as [|z l' Hyz]; cbn.
    + constructor. by apply Qle_bool_false.
    + destruct (Qle_bool (m z) (m x)); constructor; [by apply Qle_bool_false | done].
Qed.

Lemma insert_desc_behind_sorted {A} (m : A -> Q) (x : A) (l : list A) :
  Sorted (desc m) l -> Sorted (desc m) (insert_desc_behind m x l).
Proof.
  induction 1 as [|y l Hs IH Hhd]; cbn; [by repeat constructor|].
  destruct (Qle_bool (m x) (m y)) eqn:E.
  - constructor; [done|].
    destruct Hhd as [|z l' Hyz]; cbn.
    + constructor. by apply Qle_bool_iff.
    + destruct (Qle_bool (m x) (m z)); constructor; [done | by apply Qle_bool_iff].
  - constructor; [by constructor|]. constructor. by apply Qle_bool_false.
Qed.

Lemma stable_sort_desc_sorts : sorts_desc stable_sort_desc.
Proof.
  intros A m l. unfold stable_sort_desc.
  induction l as [|x l [IHp IHs]]; cbn; [by split; [|constructor]|].
  split; [by rewrite insert_desc_perm, IHp | by apply insert_desc_sorted].
Qed.

Lemma reversing_sort_desc_sorts : sorts_desc reversing_sort_desc.
Proof.
  intros A m l. unfold reversing_sort_desc.
  induction l as [|x l [IHp IHs]]; cbn; [by split; [|constructor]|].
  split; [by rewrite insert_desc_behind_perm, IHp | by apply insert_desc_behind_sorted].
Qed.

Lemma Sorted_take {A} (R : relation A) (n : nat) (l : list A) :
  Sorted R l -> Sorted R (take n l).
Proof.
  intros Hs. revert n. induction Hs as [|x l Hs IH Hhd]; intros [|n]; cbn; try constructor.
  - apply IH.
  - destruct Hhd as [|y l' Hxy]; destruct n; cbn; by constructor.
Qed.

Lemma distinct_groups {K} `{EqDecision K, Ord K} (key : Row -> option K) (df : DataFrame) :
  length (grouped_view key df) = length (unique (dropna key df)).
Proof.
  rewrite grouped_view_length. unfold group_keys. by rewrite sorted_Permutation.
Qed.

(** ** Margin rate (C1) *)

Lemma margin_rate_of_cases (s p : Q) :
  (margin_rate_of s p == if Qeq_bool s 0 then p else p / s)%Q.
Proof.
  unfold margin_rate_of, replace_0_1.
  destruct (Qeq_bool s 0); [|reflexivity].
  unfold Qdiv. change (/ 1)%Q with 1%Q. apply Qmult_1_r.
Qed.

Lemma grouped_view_margin {K} `{EqDecision K, Ord K} (key : Row -> option K) (df : DataFrame) :
  Forall (fun g => MarginRate g = margin_rate_of (SumSales g) (SumProfit g))
         (grouped_view key df).
Proof. unfold grouped_view. apply Forall_fmap, Forall_true. by intros []. Qed.

Lemma kpi_margin_rate (df : DataFrame) :
  let k := kpi_calculation df in
  (margin_rate k ==
     if Qeq_bool (total_sales k) 0 then 0 else margin_rate_of (total_sales k) (total_profit k))%Q.
Proof.
  unfold kpi_calculation. destruct (empty df);
    cbn [margin_rate total_sales total_profit]; [reflexivity|].
  destruct (Qeq_bool (sumQ (Sales <$> df)) 0) eqn:E; cbn [negb]; [reflexivity|].
  rewrite margin_rate_of_cases, E. reflexivity.
Qed.

Lemma grouped_view_policy {K} `{EqDecision K, Ord K} (key : Row -> option K) (df : DataFrame) :
  Forall follows_policy (grouped_view key df).
Proof. exact (grouped_view_margin key df). Qed.

(** C1, as the design document states it, fails on the script: on a table
    whose only row has Sales 0 and Profit 5 the Margin Rate tile shows 0,
    while [profit / (sales if sales != 0 else 1)] of the totals is 5. *)
Lemma margin_rate_kpi_is_not_the_group_function :
  exists out w,
    script us_abbr_sample stable_sort_desc (no_filter 16000 18000) KSales
           (loaded [zero_sales_row]) = (Ok out, w)
    /\ (total_sales (out_kpis out) == 0)%Q
    /\ (total_profit (out_kpis out) == 5)%Q
    /\ (margin_rate (out_kpis out) == 0)%Q
    /\ ~ (margin_rate (out_kpis out)
          == margin_rate_of (total_sales (out_kpis out)) (total_profit (out_kpis out)))%Q.
Proof.
  eexists _, _. split; [vm_compute; reflexivity|].
  cbn [out_kpis total_sales total_profit margin_rate].
  repeat split; try reflexivity. intros H. vm_compute in H. discriminate.
Qed.

(** C1 (amended): the margin rate of a group is the one function
    [profit / (sales if sales != 0 else 1)], which returns [profit] when
    [sales == 0] and [profit / sales] otherwise.  In every run that builds
    the views, each row of the daily view, of the product view and its top
    10, of the (Year, Segment) view, of the state view, of the quarterly view
    and of the (Quarter, Category) view carries that function of its own
    SumSales and SumProfit (for the product view and its top 10: for any
    sorting routine that returns the rows it is given, in whatever order).
    The seventh view, by (Category, Quarter), is not among them.  The Margin
    Rate tile is that function of the total Sales and total Profit when the
    total Sales is not 0, and is 0 when the total Sales is 0. *)
Theorem margin_rate_policy
    (us_abbr : string -> option string)
    (sort_values_desc : forall A : Type, (A -> Q) -> list A -> list A)
    (fs : FilterState) (kpi : KPI) (d : DataFrame) :
  reorders sort_values_desc ->
  (forall s p : Q,
      margin_rate_of s p = spec_marginRate s p
      /\ (spec_marginRate s p == if Qeq_bool s 0 then p else p / s)%Q)
  /\ match session us_abbr sort_values_desc fs kpi (loaded d) with
     | (Ok out, _) =>
         (margin_rate (out_kpis out) ==
            if Qeq_bool (total_sales (out_kpis out)) 0 then 0
            else spec_marginRate (total_sales (out_kpis out)) (total_profit (out_kpis out)))%Q
         /\ match out_charts out with
            | None => apply_filters fs d = []
            | Some ch =>
                Forall follows_policy (daily_grouped ch)
                /\ Forall follows_policy (product_grouped ch)
                /\ Forall follows_policy (top_10 ch)
                /\ Forall follows_policy (year_segment_grouped ch)
                /\ Forall follows_policy (state_grouped ch)
                /\ Forall follows_policy (quarterly_grouped ch)
                /\ Forall follows_policy (quarterly_data ch)
            end
     | (Raised _, _) => d = [] \/ apply_filters fs d <> []
     end.
Proof.
  intros Hsort. split.
  { intros s p. split; [reflexivity|]. apply margin_rate_of_cases. }
  pose proof (session_outcome us_abbr sort_values_desc fs kpi d) as Hout.
  cbv zeta in Hout.
  destruct (session us_abbr sort_values_desc fs kpi (loaded d)) as [[out|e] w].
  - destruct Hout as (_ & Hk & Hch). split.
    + rewrite Hk. exact (kpi_margin_rate (apply_filters fs d)).
    + destruct (out_charts out) as [ch|]; [|done].
      destruct Hch as (_ & f2 & _ & ->).
      cbn [charts_of daily_grouped product_grouped top_10 year_segment_grouped
             state_grouped quarterly_grouped quarterly_data].
      pose proof (Hsort _ (metric kpi) (grouped_view Product_Name (apply_filters fs d)))
        as Hperm.
      assert (Hproduct : Forall follows_policy
                (sort_values_desc _ (metric kpi)
                   (grouped_view Product_Name (apply_filters fs d)))).
      { rewrite Hperm. apply grouped_view_policy. }
      repeat split; try apply grouped_view_policy; [done|].
      by apply Forall_take.
  - destruct Hout as [[Hd _]|[Hne _]]; [by left | by right].
Qed.

Lemma margin_rate_policy_witness :
  reorders stable_sort_desc
  /\ (forall s p : Q,
        margin_rate_of s p = spec_marginRate s p
        /\ (spec_marginRate s p == if Qeq_bool s 0 then p else p / s)%Q)
  /\ match session us_abbr_sample stable_sort_desc (no_filter 16000 18000) KMarginRate
             (loaded sample_rows) with
     | (Ok out, _) =>
         (margin_rate (out_kpis out) ==
            if Qeq_bool (total_sales (out_kpis out)) 0 then 0
            else spec_marginRate (total_sales (out_kpis out)) (total_profit (out_kpis out)))%Q
         /\ match out_charts out with
            | None => apply_filters (no_filter 16000 18000) sample_rows = []
            | Some ch =>
                Forall follows_policy (daily_grouped ch)
                /\ Forall follows_policy (product_grouped ch)
                /\ Forall follows_policy (top_10 ch)
                /\ Forall follows_policy (year_segment_grouped ch)
                /\ Forall follows_policy (state_grouped ch)
                /\ Forall follows_policy (quarterly_grouped ch)
                /\ Forall follows_policy (quarterly_data ch)
            end
     | (Raised _, _) => sample_rows = [] \/ apply_filters (no_filter 16000 18000) sample_rows <> []
     end.
Proof.
  assert (Hsort : reorders stable_sort_desc)
    by (intros A m l; apply stable_sort_desc_sorts).
  split; [exact Hsort|].
  exact (margin_rate_policy us_abbr_sample stable_sort_desc (no_filter 16000 18000) KMarginRate
           sample_rows Hsort).
Defined.

(** ** Additivity of the grouped Quantity sums (C5) *)

Lemma Zplus_total_groups {K} `{EqDecision K, Ord K}
    (v : Row -> Z) (key : Row -> option K) (df : DataFrame) :
  (forall r, r ∈ df -> is_Some (key r)) ->
  foldr Z.add 0 ((fun g : K * DataFrame => foldr Z.add 0 (v <$> g.2)) <$> groupby key df)
  = foldr Z.add 0 (v <$> df).
Proof.
  intros Hall. unfold groupby. rewrite <- list_fmap_compose.
  apply (total_groups eq Z.add 0 _ _ Z.add_assoc Z.add_comm Z.add_0_l v key).
  - apply NoDup_group_keys.
  - intros r Hr. destruct (Hall r Hr) as [k Hk]. exists k. split; [done|].
    apply elem_of_group_keys. eauto.
Qed.

Lemma kpi_calculation_totals (df : DataFrame) :
  total_sales (kpi_calculation df) = sumQ (Sales <$> df)
  /\ total_quantity (kpi_calculation df) = sum_int64 (Quantity <$> df)
  /\ total_profit (kpi_calculation df) = sumQ (Profit <$> df).
Proof. by destruct df. Qed.

Lemma dropna_keyed {K} (key : Row -> option K) (df : DataFrame) :
  dropna key (keyed key df) = dropna key df.
Proof.
  unfold dropna, keyed. induction df as [|r df IH]; [done|].
  rewrite filter_cons. destruct (decide (is_Some (key r))) as [Hs|Hn]; cbn.
  - by rewrite IH.
  - rewrite IH. destruct (key r) eqn:E; [|done]. exfalso. apply Hn. by eexists.
Qed.

Lemma groupby_keyed {K} `{EqDecision K, Ord K} (key : Row -> option K) (df : DataFrame) :
  groupby key (keyed key df) = groupby key df.
Proof.
  unfold groupby. rewrite dropna_keyed. apply list_fmap_ext. intros _ k _. f_equal.
  unfold keyed. rewrite list_filter_filter. apply list_filter_iff.
  intros r. split; [tauto|]. intros E. split; [done|]. rewrite E. by eexists.
Qed.

(** The [int64] sums of the groups add up, as [int64], to the sum of the
    column, when every row has a key. *)
Lemma grouped_view_quantity {K} `{EqDecision K, Ord K} (key : Row -> option K) (df : DataFrame) :
  (forall r, r ∈ df -> is_Some (key r)) ->
  sum_int64 (SumQuantity <$> grouped_view key df) = sum_int64 (Quantity <$> df).
Proof.
  intros Hall. unfold grouped_view. rewrite <- !list_fmap_compose.
  assert (E : (SumQuantity ∘ agg_group) <$> groupby key df
              = wrap_int64 <$> ((fun g : K * DataFrame => foldr Z.add 0 (Quantity <$> g.2))
                                  <$> groupby key df)).
  { rewrite <- list_fmap_compose. apply list_fmap_ext.
    intros i g _. apply sum_int64_exact. }
  rewrite E, sum_int64_of_wrapped, !sum_int64_exact.
  f_equal. apply (Zplus_total_groups Quantity key df Hall).
Qed.

Lemma grouped_view_quantity_keyed {K} `{EqDecision K, Ord K}
    (key : Row -> option K) (df : DataFrame) :
  sum_int64 (SumQuantity <$> grouped_view key df) = sum_int64 (Quantity <$> keyed key df).
Proof.
  assert (E : grouped_view key df = grouped_view key (keyed key df)).
  { unfold grouped_view. by rewrite groupby_keyed. }
  rewrite E. apply grouped_view_quantity.
  intros r Hr. by apply list_elem_of_filter in Hr as [Hr _].
Qed.

(** C5, as stated, fails on the script for the grouping by Product Name:
    on a table of two rows of which the second has no Product Name, the
    product view has the one group Chair A, with SumSales 100 and
    SumQuantity 2, while the Sales tile shows 150 and the Quantity tile 6. *)
Lemma product_groups_leave_out_unnamed_rows :
  exists (out : Output) (w : World) (ch : Charts),
    session us_abbr_sample stable_sort_desc (no_filter 16000 18000) KQuantity
            (loaded unnamed_product_rows) = (Ok out, w)
    /\ out_charts out = Some ch
    /\ gkey <$> product_grouped ch = ["Chair A"]%string
    /\ sum_int64 (SumQuantity <$> product_grouped ch) = 2
    /\ total_quantity (out_kpis out) = 6
    /\ (sumQ (SumSales <$> product_grouped ch) == 100)%Q
    /\ (total_sales (out_kpis out) == 150)%Q
    /\ sum_int64 (SumQuantity <$> product_grouped ch) <> total_quantity (out_kpis out)
    /\ ~ (sumQ (SumSales <$> product_grouped ch) == total_sales (out_kpis out))%Q.
Proof.
  eexists _, _, _. split; [vm_compute; reflexivity|].
  split; [reflexivity|].
  cbn [product_grouped out_kpis total_quantity total_sales].
  repeat split; try (vm_compute; reflexivity); try (vm_compute; discriminate).
Qed.

(** C5 (amended): for every frame and every grouping, the per-group
    SumQuantity values add up, as [int64], to the total Quantity of the rows
    that have a value in the key column(s): a row with a missing key cell is
    in no group.  Hence they add up to the Quantity tile of the whole frame
    when no key cell is missing, which is always so for the grouping by
    Order Date: in every run that builds the views, the SumQuantity values
    of the daily view add up to the Quantity tile. *)
Theorem group_sums_add_up :
  (forall (K : Type) (eqK : EqDecision K) (ordK : Ord K) (key : Row -> option K)
          (df : DataFrame),
      sum_int64 (SumQuantity <$> grouped_view key df)
      = total_quantity (kpi_calculation (keyed key df))
      /\ Forall (fun g : K * DataFrame => Forall (fun r => key r = Some g.1) g.2)
                (groupby key df)
      /\ ((forall r, r ∈ df -> is_Some (key r)) ->
          sum_int64 (SumQuantity <$> grouped_view key df)
          = total_quantity (kpi_calculation df)))
  /\ (forall df : DataFrame,
        sum_int64 (SumQuantity <$> grouped_view by_order_date df)
        = total_quantity (kpi_calculation df))
  /\ (forall (us_abbr : string -> option string)
             (sort_values_desc : forall A : Type, (A -> Q) -> list A -> list A)
             (fs : FilterState) (kpi : KPI) (d : DataFrame),
        match session us_abbr sort_values_desc fs kpi (loaded d) with
        | (Ok out, _) =>
            match out_charts out with
            | None => apply_filters fs d = []
            | Some ch =>
                sum_int64 (SumQuantity <$> daily_grouped ch) = total_quantity (out_kpis out)
            end
        | (Raised _, _) => d = [] \/ apply_filters fs d <> []
        end).
Proof.
  assert (Hdaily : forall df : DataFrame,
            sum_int64 (SumQuantity <$> grouped_view by_order_date df)
            = total_quantity (kpi_calculation df)).
  { intros df. destruct (kpi_calculation_totals df) as (_ & -> & _).
    apply grouped_view_quantity. intros r _. by eexists. }
  split; [|split; [exact Hdaily|]].
  2: { intros. pose proof (session_outcome us_abbr sort_values_desc fs kpi d) as H.
       cbv zeta in H.
       destruct (session us_abbr sort_values_desc fs kpi (loaded d)) as [[out|e] w].
       - destruct H as (_ & -> & H). destruct (out_charts out) as [ch|]; [|done].
         destruct H as (_ & f2 & _ & ->). cbn [charts_of daily_grouped]. apply Hdaily.
       - destruct H as [[Hd _]|[Hne _]]; [by left | by right]. }
  - intros K eqK ordK key df. split; [|split].
    + destruct (kpi_calculation_totals (keyed key df)) as (_ & -> & _).
      apply grouped_view_quantity_keyed.
    + unfold groupby. apply Forall_fmap, Forall_true. intros k. cbn.
      apply Forall_forall. intros r Hr. by apply list_elem_of_filter in Hr as [Hr _].
    + intros Hall. destruct (kpi_calculation_totals df) as (_ & -> & _).
      by apply grouped_view_quantity.
Qed.

(** ** Soundness of the filters (C2) *)

Lemma is_All_false (pick : string) : is_All pick = false <-> pick <> "All"%string.
Proof. unfold is_All. apply String.eqb_neq. Qed.

Lemma elem_of_narrow col pick (f : DataFrame) (r : Row) :
  r ∈ narrow col pick f <-> r ∈ f /\ picked col pick r.
Proof.
  unfold narrow, picked. destruct (is_All pick) eqn:E; cbn [negb].
  - apply String.eqb_eq in E. tauto.
  - apply is_All_false in E. rewrite list_elem_of_filter.
    unfold eq_mask. rewrite bool_decide_spec. tauto.
Qed.

Lemma narrow_sublist col pick (f : DataFrame) : narrow col pick f `sublist_of` f.
Proof.
  unfold narrow. destruct (negb (is_All pick)); [apply sublist_filter | reflexivity].
Qed.

Lemma date_mask_spec from to (r : Row) : date_mask from to r <-> in_date_range from to r.
Proof.
  unfold date_mask, in_date_range.
  rewrite andb_True, !Is_true_true, !Z.leb_le. tauto.
Qed.

Lemma apply_filters_sublist fs (d : DataFrame) : apply_filters fs d `sublist_of` d.
Proof.
  unfold apply_filters, after_segment, after_subcat, after_category, after_state, after_region.
  etransitivity; [apply sublist_filter|].
  repeat (etransitivity; [apply narrow_sublist|]). reflexivity.
Qed.

Lemma elem_of_apply_filters fs (d : DataFrame) (r : Row) :
  r ∈ apply_filters fs d <-> r ∈ d /\ satisfies fs r.
Proof.
  unfold apply_filters, after_segment, after_subcat, after_category, after_state, after_region,
    satisfies.
  rewrite list_elem_of_filter, date_mask_spec, !elem_of_narrow. tauto.
Qed.

(** C2: whatever the table and the filter state, the frame the filters leave
    is a sub-list of the loaded rows, and each of its rows meets every
    selector that is set and has its Order Date within [from, to],
    bounds included. *)
Theorem filters_sound (fs : FilterState) (d : DataFrame) :
  exists (r : ref) (w : World) (f : DataFrame),
    filter_phase fs (loaded d) = (Ok r, w)
    /\ frames w !! r = Some f
    /\ f `sublist_of` d
    /\ Forall (satisfies fs) f
    /\ Forall (fun row => from_date fs <= date_of (Order_Date row) <= to_date fs) f.
Proof.
  destruct (filter_phase_run fs d) as (r & w & E & _ & _ & Hr & _).
  exists r, w, (apply_filters fs d).
  split; [done|]. split; [done|]. split; [apply apply_filters_sublist|].
  split; apply Forall_forall; intros row Hrow;
    apply elem_of_apply_filters in Hrow as [_ Hsat]; [done|].
  destruct Hsat as (_ & _ & _ & _ & _ & Hlo & Hhi).
  unfold to_datetime, date_of in *.
  assert (0 < ns_per_day) by (unfold ns_per_day; lia).
  split.
  - by apply Z.div_le_lower_bound; [|rewrite Z.mul_comm].
  - apply Z.div_le_upper_bound; [done|]. by rewrite Z.mul_comm.
Qed.

(** ** Order of the predicates (C7) *)

Lemma apply_in_order_filter (ps : list (Row -> bool)) (d : DataFrame) :
  apply_in_order ps d = filter (fun r => Forall (fun p : Row -> bool => p r) ps) d.
Proof.
  unfold apply_in_order. revert d.
  induction ps as [|p ps IH]; intros d; cbn [foldl].
  - symmetry. induction d as [|r d IHd]; [done|].
    rewrite filter_cons_True by constructor. by f_equal.
  - rewrite IH, list_filter_filter. apply list_filter_iff.
    intros r. rewrite Forall_cons. tauto.
Qed.

Lemma apply_in_order_perm (ps qs : list (Row -> bool)) (d : DataFrame) :
  ps ≡ₚ qs -> apply_in_order ps d = apply_in_order qs d.
Proof.
  intros Hperm. rewrite !apply_in_order_filter.
  apply list_filter_iff. intros r. by rewrite Hperm.
Qed.

Lemma apply_in_order_app (ps qs : list (Row -> bool)) (d : DataFrame) :
  apply_in_order (ps ++ qs) d = apply_in_order qs (apply_in_order ps d).
Proof. apply foldl_app. Qed.

Lemma apply_set_mask col pick (d : DataFrame) :
  apply_in_order (set_mask col pick) d = narrow col pick d.
Proof. unfold set_mask, narrow. by destruct (negb (is_All pick)). Qed.

(** The fixed order of the script. *)
Lemma apply_filters_in_order fs (d : DataFrame) :
  apply_filters fs d = apply_in_order (set_predicates fs) d.
Proof.
  unfold set_predicates. rewrite !apply_in_order_app, !apply_set_mask. reflexivity.
Qed.

(** C7: applying the set equality masks and the date mask one after the
    other in any order leaves the rows, in the order, that the script's fixed
    Region, State, Category, Sub-Category, Segment, date order leaves. *)
Theorem filter_order_irrelevant (fs : FilterState) (d : DataFrame)
    (ps : list (Row -> bool)) :
  ps ≡ₚ set_predicates fs ->
  exists (r : ref) (w : World),
    filter_phase fs (loaded d) = (Ok r, w)
    /\ frames w !! r = Some (apply_in_order ps d).
Proof.
  intros Hperm.
  destruct (filter_phase_run fs d) as (r & w & E & _ & _ & Hr & _).
  exists r, w. split; [done|].
  by rewrite (apply_in_order_perm _ _ d Hperm), <- apply_filters_in_order.
Qed.

Lemma filter_order_irrelevant_witness :
  let ps := [date_mask 16000 18000; eq_mask Segment "Consumer"; eq_mask Region "West"] in
  ps ≡ₚ set_predicates west_consumer
  /\ exists (r : ref) (w : World),
       filter_phase west_consumer (loaded sample_rows) = (Ok r, w)
       /\ frames w !! r = Some (apply_in_order ps sample_rows).
Proof.
  intros ps.
  assert (Hperm : ps ≡ₚ set_predicates west_consumer).
  { unfold ps. change (set_predicates west_consumer)
      with [eq_mask Region "West"; eq_mask Segment "Consumer"; date_mask 16000 18000].
    etransitivity; [apply perm_swap|].
    etransitivity; [apply perm_skip, perm_swap|].
    apply perm_swap. }
  split; [exact Hperm | exact (filter_order_irrelevant west_consumer sample_rows ps Hperm)].
Defined.

(** ** The options of the selectors (C6) *)

#[local] Instance string_le_total : Total (@ord_le string _).
Proof.
  intros a b. unfold ord_le, ord_leb, string_Ord.
  destruct (String.leb_total a b) as [-> | ->]; [by left | by right].
Qed.

Lemma string_le_lt (a b : string) : ord_le a b -> a <> b -> string_lt a b.
Proof.
  unfold ord_le, ord_leb, string_Ord, string_lt, String.leb, String.ltb.
  destruct (String.compare a b) eqn:E; intros Hle Hne; try done.
  by apply String.compare_eq_iff in E.
Qed.

Lemma Sorted_strict {A} (R R' : relation A) (l : list A) :
  (forall a b, R a b -> a <> b -> R' a b) ->
  Sorted R l -> NoDup l -> Sorted R' l.
Proof.
  intros HR. induction 1 as [|a l Hs IH Hhd]; intros Hnd; [constructor|].
  apply NoDup_cons in Hnd as [Ha Hnd].
  constructor; [by apply IH|].
  destruct Hhd as [|b l' Hab]; constructor.
  apply HR; [done|]. intros ->. apply Ha. by left.
Qed.

Lemma select_options_spec (col : Row -> option string) (df : DataFrame) :
  exists l : list string,
    select_options col df = "All"%string :: l
    /\ Sorted string_lt l
    /\ forall v, v ∈ l <-> exists row, row ∈ df /\ col row = Some v.
Proof.
  exists (sorted (unique (dropna col df))). split; [reflexivity|]. split.
  - apply (Sorted_strict ord_le); [apply string_le_lt | |].
    + apply Sorted_merge_sort, _.
    + apply NoDup_sorted, NoDup_unique.
  - intros v. by rewrite elem_of_sorted, elem_of_unique, elem_of_dropna.
Qed.

(** C6: the five selectors are offered, in the order Region, State,
    Category, Sub-Category, Segment, the options of their column in the frame
    narrowed by the selectors before them; an option list is ["All"]
    followed by the strictly increasing list of the values the column takes
    in that frame, so it is never empty. *)
Theorem options_offered (fs : FilterState) (d : DataFrame) :
  (exists (r : ref) (w : World) (rest : list UiEvent),
     filter_phase fs (loaded d) = (Ok r, w)
     /\ ui w =
          [ Selectbox "Select Region" (select_options Region d);
            Selectbox "Select State"
              (select_options State (narrow Region (selected_region fs) d));
            Selectbox "Select Category"
              (select_options Category
                 (narrow State (selected_state fs) (narrow Region (selected_region fs) d)));
            Selectbox "Select Sub-Category"
              (select_options Sub_Category
                 (narrow Category (selected_category fs)
                    (narrow State (selected_state fs)
                       (narrow Region (selected_region fs) d))));
            Selectbox "Select Segment"
              (select_options Segment
                 (narrow Sub_Category (selected_subcat fs)
                    (narrow Category (selected_category fs)
                       (narrow State (selected_state fs)
                          (narrow Region (selected_region fs) d))))) ] ++ rest)
  /\ (forall (col : Row -> option string) (pick : string) (f : DataFrame) (row : Row),
        row ∈ narrow col pick f <-> row ∈ f /\ (pick <> "All"%string -> col row = Some pick))
  /\ (forall (col : Row -> option string) (f : DataFrame),
        exists l : list string,
          select_options col f = "All"%string :: l
          /\ Sorted string_lt l
          /\ forall v, v ∈ l <-> exists row, row ∈ f /\ col row = Some v).
Proof.
  split; [|split; [exact elem_of_narrow | exact select_options_spec]].
  destruct (filter_phase_run fs d) as (r & w & E & _ & _ & _ & Hui).
  exists r, w. eexists. split; [done|]. rewrite Hui. reflexivity.
Qed.

(** ** Empty results and inverted dates (C4, C8) *)

Lemma script_run_empty us_abbr sort_values_desc (fs : FilterState) (kpi : KPI) (d : DataFrame) :
  apply_filters fs d = [] ->
  exists (r : ref) (w : World),
    script us_abbr sort_values_desc fs kpi (loaded d)
    = (Ok (mkOutput r (mkKPIs 0 0 0 0) None), w)
    /\ frames w !! r = Some []
    /\ ui w = sidebar fs d ++ [no_data].
Proof.
  intros Hemp.
  destruct (script_run us_abbr sort_values_desc fs kpi d) as (r & w & E & _ & _ & Hr & Hui).
  exists r, w. unfold script_result in E. rewrite Hemp in *. cbn in E, Hr, Hui.
  split; [done|]. split; [by apply Hr | done].
Qed.




Lemma date_mask_inverted (from to : Date) (f : DataFrame) :
  from > to -> filter (fun r => date_mask from to r) f = [].
Proof.
  intros Hinv. induction f as [|r f IH]; [done|].
  rewrite filter_cons_False; [done|].
  rewrite date_mask_spec. unfold in_date_range, to_datetime, ns_per_day. lia.
Qed.

(** C8: with From Date after To Date the sidebar shows the error message and
    the run goes on normally: the date mask is applied with the bounds as
    given, which keeps no row, and the KPIs are computed on that empty
    frame. *)
Theorem inverted_dates_not_fatal
    (us_abbr : string -> option string)
    (sort_values_desc : forall A : Type, (A -> Q) -> list A -> list A)
    (fs : FilterState) (kpi : KPI) (d : DataFrame) :
  from_date fs > to_date fs ->
  exists (out : Output) (w : World),
    script us_abbr sort_values_desc fs kpi (loaded d) = (Ok out, w)
    /\ SidebarError "From Date must be earlier than To Date." ∈ ui w
    /\ frames w !! out_df out
       = Some (filter (fun r => date_mask (from_date fs) (to_date fs) r) (after_segment fs d))
    /\ filter (fun r => date_mask (from_date fs) (to_date fs) r) (after_segment fs d) = []
    /\ out_kpis out = mkKPIs 0 0 0 0
    /\ out_charts out = None.
Proof.
  intros Hinv.
  pose proof (date_mask_inverted _ _ (after_segment fs d) Hinv) as Hemp.
  destruct (script_run_empty us_abbr sort_values_desc fs kpi d Hemp) as (r & w & E & Hr & Hui).
  exists (mkOutput r (mkKPIs 0 0 0 0) None), w. cbn [out_df out_kpis out_charts].
  rewrite Hemp. repeat split; try done.
  rewrite Hui. unfold sidebar.
  replace (from_date fs >? to_date fs) with true by (symmetry; apply Z.gtb_lt; lia).
  rewrite !elem_of_app. left. right. by left.
Qed.

Lemma inverted_dates_not_fatal_witness :
  from_date inverted_dates > to_date inverted_dates
  /\ exists (out : Output) (w : World),
       script us_abbr_sample stable_sort_desc inverted_dates KSales (loaded sample_rows)
       = (Ok out, w)
       /\ SidebarError "From Date must be earlier than To Date." ∈ ui w
       /\ frames w !! out_df out
          = Some (filter (fun r => date_mask (from_date inverted_dates)
                                             (to_date inverted_dates) r)
                         (after_segment inverted_dates sample_rows))
       /\ filter (fun r => date_mask (from_date inverted_dates) (to_date inverted_dates) r)
                 (after_segment inverted_dates sample_rows) = []
       /\ out_kpis out = mkKPIs 0 0 0 0
       /\ out_charts out = None.
Proof.
  assert (Hinv : from_date inverted_dates > to_date inverted_dates) by (cbn; lia).
  split; [exact Hinv|].
  exact (inverted_dates_not_fatal us_abbr_sample stable_sort_desc inverted_dates KSales
           sample_rows Hinv).
Defined.

(** ** The loaded table is never written (C9) *)

(** C9: after a run of the script, whatever the picks, the KPI, the state
    table and the sorting routine, and whether the run ended normally or
    raised, the object [df_original] holds the rows it was loaded with: the
    narrowed frames are new objects and the column writes go to another
    object. *)
Theorem loaded_dataset_unchanged
    (us_abbr : string -> option string)
    (sort_values_desc : forall A : Type, (A -> Q) -> list A -> list A)
    (fs : FilterState) (kpi : KPI) (d : DataFrame) :
  frames (script us_abbr sort_values_desc fs kpi (loaded d)).2 !! df_original = Some d
  /\ frames (filter_phase fs (loaded d)).2 !! df_original = Some d
  /\ exists r, (filter_phase fs (loaded d)).1 = Ok r /\ r <> df_original.
Proof.
  destruct (script_run us_abbr sort_values_desc fs kpi d) as (r & w & -> & _ & H0 & _).
  destruct (filter_phase_run fs d) as (r' & w' & -> & Hne & Hf0 & _).
  split; [done|]. split; [done|]. by exists r'.
Qed.

(** ** The summed margin rate of the (Category, Quarter) view (C10) *)

Lemma margin_rate_column (l : DataFrame) :
  Forall (fun r => Margin_Rate r = Some (margin_rate_of (Sales r) (Profit r))) l ->
  omap Margin_Rate l = row_rate <$> l.
Proof.
  induction 1 as [|r l Hr _ IH]; [done|].
  cbn. rewrite Hr. cbn. by rewrite IH.
Qed.

Lemma with_margin_rate_column (df : DataFrame) :
  Forall (fun r => Margin_Rate r = Some (margin_rate_of (Sales r) (Profit r)))
         (with_margin_rate df).
Proof. unfold with_margin_rate. apply Forall_fmap, Forall_true. by intros []. Qed.

Lemma groupby_rows {K} `{EqDecision K, Ord K} (key : Row -> option K) (df : DataFrame)
    (P : Row -> Prop) :
  Forall P df -> Forall (fun g : K * DataFrame => Forall P g.2) (groupby key df).
Proof.
  intros HP. unfold groupby. apply Forall_fmap, Forall_true. intros k. cbn.
  apply Forall_forall. intros r Hr. apply list_elem_of_filter in Hr as [_ Hr].
  by apply (proj1 (Forall_forall P df) HP).
Qed.

Lemma margin_sum_view {K} `{EqDecision K, Ord K} (key : Row -> option K) (df : DataFrame) :
  grouped_view_margin_sum key (with_margin_rate df)
  = (fun g : K * DataFrame =>
       mkAgg g.1 (sumQ (Sales <$> g.2)) (sum_int64 (Quantity <$> g.2))
             (sumQ (Profit <$> g.2)) (sumQ (row_rate <$> g.2)))
    <$> groupby key (with_margin_rate df).
Proof.
  unfold grouped_view_margin_sum. apply Forall_fmap_ext.
  eapply Forall_impl; [apply (groupby_rows _ _ _ (with_margin_rate_column df))|].
  intros g Hg. unfold agg_group_margin_sum. f_equal.
  by rewrite (margin_rate_column g.2 Hg).
Qed.

(** The rate of a single row is the policy's value on that row's Sales and
    Profit. *)
Lemma row_rate_single (r : Row) :
  (sumQ (row_rate <$> [r])
   == spec_marginRate (sumQ (Sales <$> [r])) (sumQ (Profit <$> [r])))%Q.
Proof.
  cbn [fmap list_fmap sumQ foldr]. unfold row_rate, spec_marginRate.
  rewrite !Qplus_0_r.
  destruct (Qeq_bool (Sales r) 0); [reflexivity|].
  by rewrite Qplus_0_r.
Qed.

(** C10, as stated, fails on the script: the summed rate of a group of more
    than one row need not differ from the policy's SumProfit / SumSales.  On
    two rows of one category and quarter that were both sold at cost (Sales
    100 and 50, Profit 0) the view has one group, of both rows, and its
    Margin Rate is 0, which is also the policy's value 0 / 150. *)
Lemma summed_margin_rate_can_equal_policy :
  exists (out : Output) (w : World) (ch : Charts) (g : Agg (string * string)),
    session us_abbr_sample stable_sort_desc (no_filter 16000 18000) KMarginRate
            (loaded break_even_chairs) = (Ok out, w)
    /\ length (apply_filters (no_filter 16000 18000) break_even_chairs) = 2%nat
    /\ out_charts out = Some ch
    /\ df_grouped_new ch = [g]
    /\ gkey g = ("Furniture", "2016Q1")%string
    /\ (SumSales g == 150)%Q /\ (SumProfit g == 0)%Q
    /\ (MarginRate g == 0)%Q
    /\ (MarginRate g == spec_marginRate (SumSales g) (SumProfit g))%Q.
Proof.
  eexists _, _, _, _. split; [vm_compute; reflexivity|].
  split; [reflexivity|]. split; [reflexivity|]. split; [reflexivity|].
  cbn [gkey SumSales SumProfit MarginRate].
  repeat split; reflexivity.
Qed.

(** C10 (amended): whenever the views are built there is one more, grouped
    by (Category, Quarter), and its Margin Rate is the sum, over the rows of
    the group, of the row's Profit divided by the row's Sales with a Sales
    of 0 replaced by 1.  For a group of one row that is the policy's value
    on the group's SumSales and SumProfit; for a group of more than one row
    it can differ: on a group of two rows (Sales 0, Profit 5 and Sales 4,
    Profit 1) the sum is 5 + 1/4 = 21/4, while the policy's SumProfit /
    SumSales is 6/4. *)
Theorem category_quarter_margin_is_summed :
  (forall (us_abbr : string -> option string)
          (sort_values_desc : forall A : Type, (A -> Q) -> list A -> list A)
          (fs : FilterState) (kpi : KPI) (d : DataFrame),
      match session us_abbr sort_values_desc fs kpi (loaded d) with
      | (Ok out, _) =>
          match out_charts out with
          | None => apply_filters fs d = []
          | Some ch =>
              exists f2 : DataFrame,
                try_map (abbreviate us_abbr) (with_year (apply_filters fs d)) = Ok f2
                /\ df_grouped_new ch
                   = (fun g : (string * string) * DataFrame =>
                        mkAgg g.1 (sumQ (Sales <$> g.2)) (sum_int64 (Quantity <$> g.2))
                              (sumQ (Profit <$> g.2))
                              (sumQ ((fun r => Profit r / (if Qeq_bool (Sales r) 0 then 1
                                                           else Sales r))%Q <$> g.2)))
                     <$> groupby (pair_key Category Quarter)
                                 (with_margin_rate (with_quarter f2))
          end
      | (Raised _, _) => d = [] \/ apply_filters fs d <> []
      end)
  /\ (forall r : Row,
        (sumQ ((fun r => Profit r / (if Qeq_bool (Sales r) 0 then 1 else Sales r))%Q <$> [r])
         == spec_marginRate (sumQ (Sales <$> [r])) (sumQ (Profit <$> [r])))%Q)
  /\ (exists (out : Output) (w : World) (ch : Charts) (g : Agg (string * string)),
        session us_abbr_sample stable_sort_desc (no_filter 16000 18000) KMarginRate
                (loaded refund_and_sale) = (Ok out, w)
        /\ out_charts out = Some ch
        /\ df_grouped_new ch = [g]
        /\ gkey g = ("Furniture", "2016Q1")%string
        /\ (SumSales g == 4)%Q /\ (SumProfit g == 6)%Q
        /\ (MarginRate g == 21 / 4)%Q
        /\ (spec_marginRate (SumSales g) (SumProfit g) == 6 / 4)%Q
        /\ ~ (MarginRate g == spec_marginRate (SumSales g) (SumProfit g))%Q).
Proof.
  split; [|split].
  - intros. pose proof (session_outcome us_abbr sort_values_desc fs kpi d) as Hout.
    cbv zeta in Hout.
    destruct (session us_abbr sort_values_desc fs kpi (loaded d)) as [[out|e] w].
    + destruct Hout as (_ & _ & Hch). destruct (out_charts out) as [ch|]; [|done].
      destruct Hch as (_ & f2 & Hf2 & ->). exists f2. split; [done|].
      apply margin_sum_view.
    + destruct Hout as [[Hd _]|[Hne _]]; [by left | by right].
  - exact row_rate_single.
  - eexists _, _, _, _. split; [vm_compute; reflexivity|].
    split; [reflexivity|]. split; [reflexivity|].
    cbn [gkey SumSales SumProfit MarginRate].
    repeat split; try reflexivity.
    intros H. vm_compute in H. discriminate.
Qed.

(** * Further properties of the script *)

(** ** The date widgets and the date mask *)

Lemma series_min_spec (t : Timestamp) (l : list Timestamp) :
  foldr Z.min t l ∈ t :: l /\ Forall (fun x => foldr Z.min t l <= x) (t :: l).
Proof.
  induction l as [|y l [IHin IHle]]; cbn [foldr].
  - split; [by left | by repeat constructor].
  - apply Forall_cons in IHle as [Ht Hl]. split.
    + destruct (Z.min_spec y (foldr Z.min t l)) as [[_ ->]|[_ ->]].
      * right. by left.
      * apply elem_of_cons in IHin as [->|Hin]; [by left | right; by right].
    + repeat constructor; [lia | lia |].
      eapply Forall_impl; [exact Hl|]. cbn. intros; lia.
Qed.

Lemma series_max_spec (t : Timestamp) (l : list Timestamp) :
  foldr Z.max t l ∈ t :: l /\ Forall (fun x => x <= foldr Z.max t l) (t :: l).
Proof.
  induction l as [|y l [IHin IHle]]; cbn [foldr].
  - split; [by left | by repeat constructor].
  - apply Forall_cons in IHle as [Ht Hl]. split.
    + destruct (Z.max_spec y (foldr Z.max t l)) as [[_ ->]|[_ ->]].
      * apply elem_of_cons in IHin as [->|Hin]; [by left | right; by right].
      * right. by left.
    + repeat constructor; [lia | lia |].
      eapply Forall_impl; [exact Hl|]. cbn. intros; lia.
Qed.

Lemma frame_bounds (row : Row) (f : DataFrame) :
  exists lo hi,
    series_min (Order_Date <$> row :: f) = Some lo
    /\ series_max (Order_Date <$> row :: f) = Some hi
    /\ (exists r, r ∈ row :: f /\ Order_Date r = lo)
    /\ (exists r, r ∈ row :: f /\ Order_Date r = hi)
    /\ Forall (fun r => lo <= Order_Date r <= hi) (row :: f).
Proof.
  cbn [fmap list_fmap series_min series_max].
  destruct (series_min_spec (Order_Date row) (Order_Date <$> f)) as [Hmin Hlo].
  destruct (series_max_spec (Order_Date row) (Order_Date <$> f)) as [Hmax Hhi].
  eexists _, _. split; [reflexivity|]. split; [reflexivity|].
  change (Order_Date row :: (Order_Date <$> f)) with (Order_Date <$> row :: f) in *.
  apply list_elem_of_fmap in Hmin as (r1 & E1 & H1).
  apply list_elem_of_fmap in Hmax as (r2 & E2 & H2).
  split; [by exists r1|]. split; [by exists r2|].
  apply (proj1 (Forall_fmap Order_Date _ (row :: f))) in Hlo.
  apply (proj1 (Forall_fmap Order_Date _ (row :: f))) in Hhi.
  apply Forall_forall. intros r Hr. split.
  - apply (proj1 (Forall_forall _ _) Hlo r Hr).
  - apply (proj1 (Forall_forall _ _) Hhi r Hr).
Qed.

Lemma date_bounds_cases (original df : DataFrame) :
  let src := if empty df then original else df in
  match date_bounds original df with
  | (Some min_date, Some max_date) =>
      (exists r, r ∈ src /\ Order_Date r = min_date)
      /\ (exists r, r ∈ src /\ Order_Date r = max_date)
      /\ Forall (fun r => min_date <= Order_Date r <= max_date) src
  | (None, None) => df = [] /\ original = []
  | _ => False
  end.
Proof.
  unfold date_bounds. destruct df as [|row f]; cbn [empty].
  - destruct original as [|row f]; [done|].
    destruct (frame_bounds row f) as (lo & hi & -> & -> & H); exact H.
  - destruct (frame_bounds row f) as (lo & hi & -> & -> & H); exact H.
Qed.


Lemma ns_per_day_value : ns_per_day = 86400000000000.
Proof. reflexivity. Qed.

(** X2: in calendar days, the date mask of lines 96-99 keeps a row exactly
    when its day is not before From Date and either its day is before To
    Date or its timestamp is midnight of To Date: a row on the last day with
    a time of day is left out. *)
Theorem date_mask_in_days (from to : Date) (r : Row) :
  date_mask from to r = true
  <-> from <= date_of (Order_Date r)
      /\ (date_of (Order_Date r) < to \/ Order_Date r = to_datetime to).
Proof.
  unfold date_mask, to_datetime, date_of. rewrite ns_per_day_value.
  rewrite andb_true_iff, !Z.leb_le. Z.div_mod_to_equations. lia.
Qed.

Lemma date_of_to_datetime (d : Date) : date_of (to_datetime d) = d.
Proof. unfold date_of, to_datetime. rewrite ns_per_day_value. Z.div_mod_to_equations. lia. Qed.

Lemma at_midnight_to_datetime (r : Row) :
  at_midnight r -> to_datetime (date_of (Order_Date r)) = Order_Date r.
Proof. unfold at_midnight, to_datetime, date_of. rewrite ns_per_day_value. Z.div_mod_to_equations. lia. Qed.

Lemma date_of_mono (t u : Timestamp) : t <= u -> date_of t <= date_of u.
Proof. unfold date_of. rewrite ns_per_day_value. Z.div_mod_to_equations. lia. Qed.

Lemma to_datetime_date_of_le (t : Timestamp) : to_datetime (date_of t) <= t.
Proof. unfold to_datetime, date_of. rewrite ns_per_day_value. Z.div_mod_to_equations. lia. Qed.

Lemma after_segment_picks (p q : FilterState) (d : DataFrame) :
  selected_region p = selected_region q -> selected_state p = selected_state q ->
  selected_category p = selected_category q -> selected_subcat p = selected_subcat q ->
  selected_segment p = selected_segment q ->
  after_segment p d = after_segment q d.
Proof.
  unfold after_segment, after_subcat, after_category, after_state, after_region.
  by intros -> -> -> -> ->.
Qed.

Lemma not_shown_among_selectboxes (e : UiEvent) (fs : FilterState) (d : DataFrame) :
  (forall label options, e <> Selectbox label options) ->
  (from_date fs >? to_date fs) = false -> e ∉ sidebar fs d.
Proof.
  intros He Hle Hin. unfold sidebar in Hin. rewrite Hle, app_nil_r in Hin.
  repeat (apply elem_of_cons in Hin as [Hin|Hin]; [by eapply He|]).
  by apply elem_of_nil in Hin.
Qed.

Lemma filter_ext_in {A} (P Q : A -> Prop) `{!forall x, Decision (P x), !forall x, Decision (Q x)}
    (l : list A) :
  (forall x, x ∈ l -> P x <-> Q x) -> filter P l = filter Q l.
Proof.
  induction l as [|x l IH]; intros Hext; [done|].
  rewrite !filter_cons, IH by (intros y Hy; apply Hext; by right).
  destruct (decide (P x)) as [HP|HP], (decide (Q x)) as [HQ|HQ]; try done;
    exfalso; apply (Hext x) in HP || apply (Hext x) in HQ; try done; by left.
Qed.

Lemma filter_all {A} (P : A -> Prop) `{!forall x, Decision (P x)} (l : list A) :
  Forall P l -> filter P l = l.
Proof.
  induction 1 as [|x l HP _ IH]; [done|].
  by rewrite filter_cons_True, IH.
Qed.

(** X3: when the user leaves both date widgets at their initial value, From
    Date is not after To Date, so no error is shown; no row is lost at the
    lower bound; and when no Order Date carries a time of day, the date mask
    keeps every row the selectors left. *)
Theorem default_dates_keep_rows (picks fs : FilterState) (d : DataFrame) :
  with_default_dates picks d = Some fs ->
  from_date fs <= to_date fs
  /\ exists (r : ref) (w : World),
       filter_phase fs (loaded d) = (Ok r, w)
       /\ (SidebarError "From Date must be earlier than To Date." ∉ ui w)
       /\ frames w !! r
          = Some (filter (fun row => (Order_Date row <= to_datetime (to_date fs)))
                         (after_segment picks d))
       /\ (Forall at_midnight (after_segment picks d) ->
           frames w !! r = Some (after_segment picks d)).
Proof.
  unfold with_default_dates. intros Hdef.
  pose proof (date_bounds_cases d (after_segment picks d)) as Hb. cbv zeta in Hb.
  destruct (date_bounds d (after_segment picks d)) as [[lo|] [hi|]]; try done.
  injection Hdef as <-.
  destruct Hb as ((r1 & Hr1 & E1) & (r2 & Hr2 & E2) & Hall).
  set (fs := mkFilterState _ _ _ _ _ _ _).
  assert (Hseg : after_segment fs d = after_segment picks d)
    by (by apply after_segment_picks).
  assert (Hlohi : lo <= hi).
  { apply (proj1 (Forall_forall _ _) Hall) in Hr1. lia. }
  assert (Hft : from_date fs <= to_date fs) by (by apply date_of_mono).
  split; [done|].
  destruct (filter_phase_run fs d) as (r & w & E & _ & _ & Hr & Hui).
  exists r, w. split; [done|]. split.
  { rewrite Hui. apply not_shown_among_selectboxes; [done|].
    rewrite Z.gtb_ltb. apply Z.ltb_ge. lia. }
  rewrite Hr. unfold apply_filters. rewrite Hseg.
  destruct (after_segment picks d) as [|row0 f0] eqn:Ef; [done|].
  cbn [empty] in Hall, Hr1, Hr2.
  assert (Hsame : filter (fun row => date_mask (from_date fs) (to_date fs) row) (row0 :: f0)
            = filter (fun row => (Order_Date row <= to_datetime (to_date fs))) (row0 :: f0)).
  { apply filter_ext_in. intros row Hrow.
    rewrite date_mask_spec. unfold in_date_range.
    apply (proj1 (Forall_forall _ _) Hall) in Hrow.
    pose proof (to_datetime_date_of_le lo). cbn [from_date to_date fs]. lia. }
  split; [by rewrite Hsame|].
  intros Hmid. rewrite Hsame. f_equal. apply filter_all.
  apply Forall_forall. intros row Hrow. cbn [to_date fs].
  apply (proj1 (Forall_forall _ _) Hmid) in Hr2.
  rewrite <- E2, (at_midnight_to_datetime r2 Hr2).
  apply (proj1 (Forall_forall _ _) Hall) in Hrow. lia.
Qed.

Lemma default_dates_keep_rows_witness :
  with_default_dates west_consumer sample_rows = Some west_consumer_default
  /\ from_date west_consumer_default <= to_date west_consumer_default
  /\ exists (r : ref) (w : World),
       filter_phase west_consumer_default (loaded sample_rows) = (Ok r, w)
       /\ (SidebarError "From Date must be earlier than To Date." ∉ ui w)
       /\ frames w !! r
          = Some (filter (fun row =>
                            (Order_Date row <= to_datetime (to_date west_consumer_default)))
                         (after_segment west_consumer sample_rows))
       /\ (Forall at_midnight (after_segment west_consumer sample_rows) ->
           frames w !! r = Some (after_segment west_consumer sample_rows)).
Proof.
  assert (Hdef : with_default_dates west_consumer sample_rows = Some west_consumer_default)
    by (vm_compute; reflexivity).
  split; [exact Hdef|].
  exact (default_dates_keep_rows west_consumer west_consumer_default sample_rows Hdef).
Defined.

(** ** The cascade of selectors *)

Lemma elem_of_select_options (col : Row -> option string) (f : DataFrame) (v : string) :
  v ∈ select_options col f
  <-> v = "All"%string \/ exists row, row ∈ f /\ col row = Some v.
Proof.
  unfold select_options.
  by rewrite elem_of_cons, elem_of_sorted, elem_of_unique, elem_of_dropna.
Qed.

Lemma offered_pick_nonempty (col : Row -> option string) (pick : string) (f : DataFrame) :
  f <> [] -> pick ∈ select_options col f -> narrow col pick f <> [].
Proof.
  intros Hf Hpick. unfold narrow. destruct (is_All pick) eqn:E; cbn [negb]; [done|].
  apply is_All_false in E.
  apply elem_of_select_options in Hpick as [->|(row & Hrow & Hcol)]; [done|].
  intros Hnil.
  assert (Hin : row ∈ filter (fun r => eq_mask col pick r) f).
  { apply list_elem_of_filter. split; [|done]. unfold eq_mask. by apply bool_decide_pack. }
  rewrite Hnil in Hin. by apply elem_of_nil in Hin.
Qed.

(** X4: on a table that has rows, when each of the five picks is one of the
    options its selector offered and the date range holds every row of the
    table, the filters leave at least one row, so the KPIs are computed from
    data and the "no data" branch is not taken. *)
Theorem offered_picks_leave_rows (fs : FilterState) (d : DataFrame) :
  d <> [] ->
  selected_region fs ∈ select_options Region d ->
  selected_state fs ∈ select_options State (after_region fs d) ->
  selected_category fs ∈ select_options Category (after_state fs d) ->
  selected_subcat fs ∈ select_options Sub_Category (after_category fs d) ->
  selected_segment fs ∈ select_options Segment (after_subcat fs d) ->
  Forall (in_date_range (from_date fs) (to_date fs)) d ->
  exists (r : ref) (w : World) (f : DataFrame),
    filter_phase fs (loaded d) = (Ok r, w)
    /\ frames w !! r = Some f
    /\ f <> []
    /\ empty f = false.
Proof.
  intros Hd H1 H2 H3 H4 H5 Hrange.
  destruct (filter_phase_run fs d) as (r & w & E & _ & _ & Hr & _).
  exists r, w, (apply_filters fs d). split; [done|]. split; [done|].
  assert (Hseg : after_segment fs d <> []).
  { unfold after_segment, after_subcat, after_category, after_state, after_region in *.
    by repeat apply offered_pick_nonempty. }
  assert (Hne : apply_filters fs d <> []).
  { unfold apply_filters. rewrite filter_all; [done|].
    apply Forall_forall. intros row Hrow. apply date_mask_spec.
    apply (proj1 (Forall_forall _ _) Hrange).
    unfold after_segment, after_subcat, after_category, after_state, after_region in Hrow.
    rewrite !elem_of_narrow in Hrow. tauto. }
  split; [done|]. by destruct (apply_filters fs d).
Qed.

Lemma offered_picks_leave_rows_witness :
  sample_rows <> []
  /\ selected_region west_consumer ∈ select_options Region sample_rows
  /\ selected_state west_consumer ∈ select_options State (after_region west_consumer sample_rows)
  /\ selected_category west_consumer
       ∈ select_options Category (after_state west_consumer sample_rows)
  /\ selected_subcat west_consumer
       ∈ select_options Sub_Category (after_category west_consumer sample_rows)
  /\ selected_segment west_consumer
       ∈ select_options Segment (after_subcat west_consumer sample_rows)
  /\ Forall (in_date_range (from_date west_consumer) (to_date west_consumer)) sample_rows
  /\ exists (r : ref) (w : World) (f : DataFrame),
       filter_phase west_consumer (loaded sample_rows) = (Ok r, w)
       /\ frames w !! r = Some f
       /\ f <> []
       /\ empty f = false.
Proof.
  assert (Hd : sample_rows <> []) by discriminate.
  assert (H1 : selected_region west_consumer ∈ select_options Region sample_rows)
    by (apply (bool_decide_unpack _); vm_compute; reflexivity).
  assert (H2 : selected_state west_consumer
                 ∈ select_options State (after_region west_consumer sample_rows))
    by (apply (bool_decide_unpack _); vm_compute; reflexivity).
  assert (H3 : selected_category west_consumer
                 ∈ select_options Category (after_state west_consumer sample_rows))
    by (apply (bool_decide_unpack _); vm_compute; reflexivity).
  assert (H4 : selected_subcat west_consumer
                 ∈ select_options Sub_Category (after_category west_consumer sample_rows))
    by (apply (bool_decide_unpack _); vm_compute; reflexivity).
  assert (H5 : selected_segment west_consumer
                 ∈ select_options Segment (after_subcat west_consumer sample_rows))
    by (apply (bool_decide_unpack _); vm_compute; reflexivity).
  assert (H6 : Forall (in_date_range (from_date west_consumer) (to_date west_consumer))
                      sample_rows).
  { repeat constructor; unfold to_datetime; rewrite ns_per_day_value; cbn; lia. }
  repeat (split; [assumption|]).
  exact (offered_picks_leave_rows west_consumer sample_rows Hd H1 H2 H3 H4 H5 H6).
Defined.

(** X5: narrowing the frame by a pick can only remove options from a later
    selector: every option offered for a column after the pick was already
    an option of that column before it. *)
Theorem narrowing_removes_options
    (col col' : Row -> option string) (pick : string) (f : DataFrame) (v : string) :
  v ∈ select_options col (narrow col' pick f) -> v ∈ select_options col f.
Proof.
  rewrite !elem_of_select_options. intros [->|(row & Hrow & Hcol)]; [by left|].
  right. exists row. split; [|done]. by apply elem_of_narrow in Hrow as [Hrow _].
Qed.

Lemma narrowing_removes_options_witness :
  "California"%string ∈ select_options State (narrow Region "West" sample_rows)
  /\ "California"%string ∈ select_options State sample_rows.
Proof.
  assert (H : "California"%string ∈ select_options State (narrow Region "West" sample_rows))
    by (apply (bool_decide_unpack _); vm_compute; reflexivity).
  split; [exact H | exact (narrowing_removes_options State Region "West" sample_rows _ H)].
Defined.

(** ** The grouped views *)

Lemma length_unique {A} `{EqDecision A} (l : list A) : (length (unique l) <= length l)%nat.
Proof.
  induction l as [|x l IH]; cbn; [done|].
  pose proof (length_filter (fun y => y <> x) (unique l)). lia.
Qed.

Lemma length_dropna {A} (col : Row -> option A) (df : DataFrame) :
  (length (dropna col df) <= length df)%nat.
Proof.
  unfold dropna. induction df as [|r df IH]; cbn; [done|].
  destruct (col r); cbn; lia.
Qed.

(** X7: a view has one row per distinct value of the key, and no row for a
    value that no frame row has; that row holds the sums of exactly the
    frame rows with that key, of which there is at least one; so a view
    never has more rows than the frame. *)
Theorem view_one_row_per_key {K} `{EqDecision K, Ord K}
    (key : Row -> option K) (df : DataFrame) :
  NoDup (gkey <$> grouped_view key df)
  /\ (forall k, k ∈ gkey <$> grouped_view key df <-> exists r, r ∈ df /\ key r = Some k)
  /\ Forall (fun g =>
               let rows := filter (fun r => key r = Some (gkey g)) df in
               rows <> []
               /\ SumSales g = sumQ (Sales <$> rows)
               /\ SumQuantity g = sum_int64 (Quantity <$> rows)
               /\ SumProfit g = sumQ (Profit <$> rows))
            (grouped_view key df)
  /\ (length (grouped_view key df) <= length df)%nat.
Proof.
  rewrite grouped_view_keys. split; [apply NoDup_group_keys|].
  split; [apply elem_of_group_keys|]. split.
  - unfold grouped_view, groupby. rewrite <- list_fmap_compose.
    apply Forall_fmap, Forall_forall. intros k Hk. cbn.
    split; [|done].
    apply elem_of_group_keys in Hk as (r & Hr & Hkey). intros Hnil.
    assert (Hin : r ∈ filter (fun r => key r = Some k) df)
      by (by apply list_elem_of_filter).
    rewrite Hnil in Hin. by apply elem_of_nil in Hin.
  - rewrite grouped_view_length. unfold group_keys.
    rewrite sorted_Permutation.
    pose proof (length_unique (dropna key df)). pose proof (length_dropna key df). lia.
Qed.

#[local] Instance Z_le_total : Total (@ord_le Z _).
Proof.
  intros a b. unfold ord_le, ord_leb, Z_Ord.
  destruct (Z.leb_spec a b); [by left|]. right. apply Is_true_true, Z.leb_le. lia.
Qed.

#[local] Instance pair_le_total {A B} `{EqDecision A, Ord A, Ord B}
    {TA : Total (@ord_le A _)} {TB : Total (@ord_le B _)} : Total (@ord_le (A * B) _).
Proof.
  intros [a1 b1] [a2 b2]. unfold ord_le at 1 2, ord_leb at 1 2, pair_Ord. cbn.
  destruct (decide (a1 = a2)) as [->|Hne].
  - rewrite decide_True by done. exact (TB b1 b2).
  - rewrite decide_False by congruence. exact (TA a1 a2).
Qed.






(** ** The chart phase: what it writes and when it raises *)

Section ChartPhase.
Variable us_abbr : string -> option string.
Variable sort_values_desc : forall A : Type, (A -> Q) -> list A -> list A.

Lemma chart_phase_final (kpi : KPI) d w r f shown :
  holds d w r f shown -> r <> df_original ->
  exists w',
    chart_phase us_abbr sort_values_desc kpi r w
    = (charts_result us_abbr sort_values_desc kpi f, w')
    /\ holds d w' r (frame_after_charts us_abbr f) shown.
Proof.
  intros H Hne. unfold chart_phase, charts_result, frame_after_charts.
  step_read H.
  destruct (setitem_holds d w r f shown
              (fun r => set_Year (dt_year (Order_Date r)) r) H Hne) as (w1 & E1 & H1).
  step E1. step_read H1.
  pose proof (setitem_try_holds d w1 r _ shown (abbreviate us_abbr) H1 Hne) as Htry.
  fold (with_year f) in Htry, H1 |- *.
  destruct (try_map (abbreviate us_abbr) (with_year f)) as [f2|e].
  - destruct Htry as (w2 & E2 & H2).
    step E2. step_read H2.
    destruct (setitem_holds d w2 r f2 shown
                (fun r => set_Order_Date (Order_Date r) r) H2 Hne) as (w3 & E3 & H3).
    step E3.
    destruct (setitem_holds d w3 r _ shown
                (fun r => set_Quarter (quarter_label (Order_Date r)) r) H3 Hne)
      as (w4 & E4 & H4).
    step E4. step_read H4.
    destruct (setitem_holds d w4 r _ shown
                (fun r => set_Margin_Rate (margin_rate_of (Sales r) (Profit r)) r) H4 Hne)
      as (w5 & E5 & H5).
    step E5. step_read H5.
    by exists w5.
  - rewrite (bind_raised _ _ _ _ _ Htry). by exists w1.
Qed.

(** The run, with the rows of [df] at its end. *)
Lemma script_final (fs : FilterState) (kpi : KPI) (d : DataFrame) :
  let f := apply_filters fs d in
  exists (r : ref) (w : World),
    script us_abbr sort_values_desc fs kpi (loaded d)
    = (script_result us_abbr sort_values_desc fs kpi d r, w)
    /\ r <> df_original
    /\ frames w !! r = Some (if empty f then f else frame_after_charts us_abbr f).
Proof.
  intros f. destruct (filter_phase_run fs d) as (r & w & E & Hne & H).
  exists r. unfold script, script_result. fold f in H |- *.
  step E. step_read H.
  destruct (empty f).
  - eexists. split; [reflexivity|]. split; [done|]. by destruct H as (_ & Hr & _).
  - destruct (chart_phase_final kpi d w r _ _ H Hne) as (w' & E' & _ & Hr' & _).
    exists w'. split; [|done].
    unfold bind. rewrite E'.
    by destruct (charts_result us_abbr sort_values_desc kpi f).
Qed.

Lemma try_map_abbreviate (l : DataFrame) :
  match try_map (abbreviate us_abbr) l with
  | Ok l' =>
      Forall2 (fun r r' => exists s, State r = Some s
                                     /\ r' = set_State (Some (default s (us_abbr s))) r) l l'
  | Raised e => e = TypeError /\ exists row, row ∈ l /\ State row = None
  end.
Proof.
  induction l as [|r l IH]; cbn [try_map]; [constructor|].
  unfold abbreviate at 1. destruct (State r) as [s|] eqn:Es.
  - destruct (try_map (abbreviate us_abbr) l) as [l'|e].
    + constructor; [by exists s | done].
    + destruct IH as (-> & row & Hrow & Hnone). split; [done|].
      exists row. split; [by right | done].
  - split; [done|]. exists r. split; [by left | done].
Qed.

Lemma abbreviated_rows (f f2 : DataFrame) :
  try_map (abbreviate us_abbr) (with_year f) = Ok f2 ->
  Forall2 (enriched us_abbr) f (with_margin_rate (with_quarter f2)).
Proof.
  intros Hok. pose proof (try_map_abbreviate (with_year f)) as H. rewrite Hok in H.
  unfold with_margin_rate, with_quarter, with_year in *.
  rewrite Forall2_fmap_l in H. rewrite !Forall2_fmap_r.
  eapply Forall2_impl; [exact H|]. cbn. intros r r' (s & Es & ->). cbn in Es.
  unfold enriched. cbn. repeat split; try done. by exists s.
Qed.
End ChartPhase.

Lemma script_final_cases
    (us_abbr : string -> option string)
    (sort_values_desc : forall A : Type, (A -> Q) -> list A -> list A)
    (fs : FilterState) (kpi : KPI) (d : DataFrame) :
  let f := apply_filters fs d in
  match script us_abbr sort_values_desc fs kpi (loaded d) with
  | (Ok out, w) =>
      out_df out <> df_original
      /\ out_kpis out = kpi_calculation f
      /\ match out_charts out with
         | None => f = [] /\ frames w !! out_df out = Some []
         | Some ch =>
             f <> []
             /\ exists f2, try_map (abbreviate us_abbr) (with_year f) = Ok f2
                           /\ ch = charts_of sort_values_desc kpi f f2
                           /\ frames w !! out_df out
                              = Some (with_margin_rate (with_quarter f2))
         end
  | (Raised e, w) =>
      f <> [] /\ try_map (abbreviate us_abbr) (with_year f) = Raised e
      /\ exists r, r <> df_original /\ frames w !! r = Some (with_year f)
  end.
Proof.
  intros f.
  destruct (script_final us_abbr sort_values_desc fs kpi d) as (r & w & -> & Hne & Hr).
  fold f in Hr. unfold script_result, charts_result, frame_after_charts in *. fold f.
  destruct f as [|row f'] eqn:Ef; cbn [empty] in *; [done|].
  destruct (try_map (abbreviate us_abbr) (with_year (row :: f'))) as [f2|e];
    cbn [out_df out_kpis out_charts].
  - split; [done|]. split; [done|]. split; [done|]. by exists f2.
  - split; [done|]. split; [done|]. by exists r.
Qed.

(** X9: when a run builds the views, the object [df] ends with one row per
    filtered row, in the same order; each row has its Order Date, Region,
    Category, Sub-Category, Segment, Product Name, Sales, Quantity and Profit
    unchanged, its State replaced by the abbreviation when the table knows
    the name and left as it is otherwise, and the columns Year, Quarter and
    Margin Rate computed from its own Order Date, Sales and Profit.  When
    the filtered frame is empty nothing is written. *)
Theorem chart_phase_writes
    (us_abbr : string -> option string)
    (sort_values_desc : forall A : Type, (A -> Q) -> list A -> list A)
    (fs : FilterState) (kpi : KPI) (d : DataFrame) :
  match script us_abbr sort_values_desc fs kpi (loaded d) with
  | (Ok out, w) =>
      match out_charts out with
      | None => frames w !! out_df out = Some [] /\ apply_filters fs d = []
      | Some _ =>
          exists f1 : DataFrame,
            frames w !! out_df out = Some f1
            /\ Forall2 (enriched us_abbr) (apply_filters fs d) f1
      end
  | (Raised _, _) => apply_filters fs d <> []
  end.
Proof.
  pose proof (script_final_cases us_abbr sort_values_desc fs kpi d) as H. cbv zeta in H.
  destruct (script us_abbr sort_values_desc fs kpi (loaded d)) as [[out|e] w];
    [|by destruct H].
  destruct H as (_ & _ & H). destruct (out_charts out) as [ch|]; [|by destruct H].
  destruct H as (_ & f2 & Hf2 & _ & Hr).
  eexists. split; [exact Hr|]. by apply abbreviated_rows.
Qed.



Lemma same_amounts_columns (l l' : DataFrame) :
  Forall2 same_amounts l l' ->
  Sales <$> l' = Sales <$> l /\ Quantity <$> l' = Quantity <$> l /\ Profit <$> l' = Profit <$> l.
Proof.
  induction 1 as [|r r' l l' (Hs & Hq & Hp) _ (IHs & IHq & IHp)]; [done|].
  cbn. by rewrite Hs, Hq, Hp, IHs, IHq, IHp.
Qed.

Lemma quantity_adds_up_same_amounts {K} `{EqDecision K, Ord K}
    (key : Row -> option K) (f f' : DataFrame) :
  Forall2 same_amounts f f' ->
  (forall r, r ∈ f' -> is_Some (key r)) ->
  sum_int64 (SumQuantity <$> grouped_view key f') = total_quantity (kpi_calculation f).
Proof.
  intros Hsame Hkey.
  destruct (same_amounts_columns f f' Hsame) as (_ & Eq & _).
  destruct (kpi_calculation_totals f) as (_ & -> & _).
  rewrite <- Eq. by apply grouped_view_quantity.
Qed.

(** X11: whenever a run builds the views, the state view and the quarterly
    view, which are grouped after the State and the Quarter column were
    written to [df], each account for every filtered row: their SumQuantity
    values add up, as [int64], to the Quantity tile.  (The writes leave
    Quantity as it was, every row has a quarter, and a row without a State
    would have stopped the run.) *)
Theorem late_views_quantity_adds_up
    (us_abbr : string -> option string)
    (sort_values_desc : forall A : Type, (A -> Q) -> list A -> list A)
    (fs : FilterState) (kpi : KPI) (d : DataFrame) :
  match session us_abbr sort_values_desc fs kpi (loaded d) with
  | (Ok out, _) =>
      match out_charts out with
      | None => apply_filters fs d = []
      | Some ch =>
          sum_int64 (SumQuantity <$> state_grouped ch) = total_quantity (out_kpis out)
          /\ sum_int64 (SumQuantity <$> quarterly_grouped ch) = total_quantity (out_kpis out)
      end
  | (Raised _, _) => d = [] \/ apply_filters fs d <> []
  end.
Proof.
  pose proof (session_outcome us_abbr sort_values_desc fs kpi d) as H. cbv zeta in H.
  destruct (session us_abbr sort_values_desc fs kpi (loaded d)) as [[out|e] w].
  2: { destruct H as [[Hd _]|[Hne _]]; [by left | by right]. }
  destruct H as (_ & -> & H). destruct (out_charts out) as [ch|]; [|done].
  destruct H as (_ & f2 & Hf2 & ->).
  set (f := apply_filters fs d) in *.
  pose proof (try_map_abbreviate us_abbr (with_year f)) as Htry. rewrite Hf2 in Htry.
  unfold with_year in Htry. rewrite Forall2_fmap_l in Htry.
  cbn [charts_of state_grouped quarterly_grouped].
  split.
  - apply quantity_adds_up_same_amounts.
    + eapply Forall2_impl; [exact Htry|]. by intros r r' (s & _ & ->).
    + intros r' Hr'. apply list_elem_of_lookup in Hr' as [i Hi].
      destruct (Forall2_lookup_r _ _ _ _ _ Htry Hi) as (r & _ & s & _ & ->).
      by eexists.
  - apply quantity_adds_up_same_amounts.
    + unfold with_quarter. rewrite !Forall2_fmap_r.
      eapply Forall2_impl; [exact Htry|]. by intros r r' (s & _ & ->).
    + intros r' Hr'. unfold with_quarter in Hr'.
      apply list_elem_of_fmap in Hr' as (r & -> & _). by eexists.
Qed.





(** ** The ranking and the Quantity tile *)

#[local] Instance desc_transitive {A} (m : A -> Q) : Transitive (desc m).
Proof. intros a b c Hab Hbc. unfold desc in *. by eapply Qle_trans. Qed.

(** X13: for any sorting routine that returns the rows it is given in
    descending order of the column, the top 10 and the rest of the sorted
    product view together hold every product once, and no product of the rest
    has a larger value of the selected KPI than a product of the top 10. *)
Theorem top_10_dominates
    (us_abbr : string -> option string)
    (sort_values_desc : forall A : Type, (A -> Q) -> list A -> list A)
    (fs : FilterState) (kpi : KPI) (d : DataFrame) :
  sorts_desc sort_values_desc ->
  match script us_abbr sort_values_desc fs kpi (loaded d) with
  | (Ok out, _) =>
      match out_charts out with
      | None => apply_filters fs d = []
      | Some ch =>
          let rest := drop 10 (product_grouped ch) in
          top_10 ch ++ rest ≡ₚ grouped_view Product_Name (apply_filters fs d)
          /\ NoDup (gkey <$> (top_10 ch ++ rest))
          /\ Forall (fun a => Forall (fun b => (metric kpi b <= metric kpi a)%Q) rest)
                    (top_10 ch)
      end
  | (Raised _, _) => apply_filters fs d <> []
  end.
Proof.
  intros Hsort. pose proof (script_outcome us_abbr sort_values_desc fs kpi d) as Hout.
  cbv zeta in Hout.
  destruct (script us_abbr sort_values_desc fs kpi (loaded d)) as [[out|e] w];
    [|by destruct Hout].
  destruct Hout as [_ Hch]. destruct (out_charts out) as [ch|]; [|done].
  destruct Hch as (_ & f2 & _ & ->). cbn [charts_of product_grouped top_10].
  set (view := grouped_view Product_Name (apply_filters fs d)).
  destruct (Hsort _ (metric kpi) view) as [Hperm Hsorted].
  set (sorted_view := sort_values_desc _ (metric kpi) view) in *.
  rewrite take_drop. split; [done|]. split.
  - rewrite Hperm. unfold view. rewrite grouped_view_keys. apply NoDup_group_keys.
  - apply Sorted_StronglySorted in Hsorted; [|apply _].
    rewrite <- (take_drop 10 sorted_view) in Hsorted.
    apply Forall_forall. intros a Ha. apply Forall_forall. intros b Hb.
    by apply (StronglySorted_app_1_elem_of _ _ _ _ _ Hsorted).
Qed.

Lemma top_10_dominates_witness :
  sorts_desc reversing_sort_desc
  /\ match script us_abbr_sample reversing_sort_desc (no_filter 16000 18000) KSales
             (loaded sample_rows) with
     | (Ok out, _) =>
         match out_charts out with
         | None => apply_filters (no_filter 16000 18000) sample_rows = []
         | Some ch =>
             let rest := drop 10 (product_grouped ch) in
             top_10 ch ++ rest
               ≡ₚ grouped_view Product_Name (apply_filters (no_filter 16000 18000) sample_rows)
             /\ NoDup (gkey <$> (top_10 ch ++ rest))
             /\ Forall (fun a => Forall (fun b => (metric KSales b <= metric KSales a)%Q) rest)
                       (top_10 ch)
         end
     | (Raised _, _) => apply_filters (no_filter 16000 18000) sample_rows <> []
     end.
Proof.
  split; [exact reversing_sort_desc_sorts|].
  exact (top_10_dominates us_abbr_sample reversing_sort_desc (no_filter 16000 18000) KSales
           sample_rows reversing_sort_desc_sorts).
Defined.

(** X20: for any sorting routine that returns the rows it is given in
    descending order of the column, the sorted product view holds the rows
    of the product view in descending order of the selected KPI, and the top
    10 is its first ten rows: descending in the KPI, and as many as there
    are distinct product names when these are fewer than ten. *)
Theorem ranking_sorted_desc
    (us_abbr : string -> option string)
    (sort_values_desc : forall A : Type, (A -> Q) -> list A -> list A)
    (fs : FilterState) (kpi : KPI) (d : DataFrame) :
  sorts_desc sort_values_desc ->
  match session us_abbr sort_values_desc fs kpi (loaded d) with
  | (Ok out, _) =>
      match out_charts out with
      | None => apply_filters fs d = []
      | Some ch =>
          product_grouped ch ≡ₚ grouped_view Product_Name (apply_filters fs d)
          /\ Sorted (desc (metric kpi)) (product_grouped ch)
          /\ top_10 ch = take 10 (product_grouped ch)
          /\ Sorted (desc (metric kpi)) (top_10 ch)
          /\ length (top_10 ch)
             = min 10 (length (unique (dropna Product_Name (apply_filters fs d))))
      end
  | (Raised _, _) => d = [] \/ apply_filters fs d <> []
  end.
Proof.
  intros Hsort. pose proof (session_outcome us_abbr sort_values_desc fs kpi d) as Hout.
  cbv zeta in Hout.
  destruct (session us_abbr sort_values_desc fs kpi (loaded d)) as [[out|e] w].
  2: { destruct Hout as [[Hd _]|[Hne _]]; [by left | by right]. }
  destruct Hout as (_ & _ & Hch). destruct (out_charts out) as [ch|]; [|done].
  destruct Hch as (_ & f2 & _ & ->). cbn [charts_of product_grouped top_10].
  destruct (Hsort _ (metric kpi) (grouped_view Product_Name (apply_filters fs d)))
    as [Hperm Hsorted].
  split; [done|]. split; [done|]. split; [done|].
  split; [by apply Sorted_take|].
  by rewrite length_take, Hperm, distinct_groups.
Qed.

Lemma ranking_sorted_desc_witness :
  sorts_desc stable_sort_desc
  /\ match session us_abbr_sample stable_sort_desc (no_filter 16000 18000) KSales
             (loaded twelve_products) with
     | (Ok out, _) =>
         match out_charts out with
         | None => apply_filters (no_filter 16000 18000) twelve_products = []
         | Some ch =>
             product_grouped ch
               ≡ₚ grouped_view Product_Name (apply_filters (no_filter 16000 18000) twelve_products)
             /\ Sorted (desc (metric KSales)) (product_grouped ch)
             /\ top_10 ch = take 10 (product_grouped ch)
             /\ Sorted (desc (metric KSales)) (top_10 ch)
             /\ length (top_10 ch)
                = min 10 (length (unique (dropna Product_Name
                                            (apply_filters (no_filter 16000 18000)
                                                           twelve_products))))
         end
     | (Raised _, _) =>
         twelve_products = [] \/ apply_filters (no_filter 16000 18000) twelve_products <> []
     end.
Proof.
  split; [exact stable_sort_desc_sorts|].
  exact (ranking_sorted_desc us_abbr_sample stable_sort_desc (no_filter 16000 18000) KSales
           twelve_products stable_sort_desc_sorts).
Defined.

(** Twelve products with Sales 10, 20, ..., 120: the ten with the largest
    Sales, largest first. *)
Example ranking_twelve_products :
  exists (out : Output) (w : World) (ch : Charts),
    session us_abbr_sample stable_sort_desc (no_filter 16000 18000) KSales
            (loaded twelve_products) = (Ok out, w)
    /\ out_charts out = Some ch
    /\ length (product_grouped ch) = 12%nat
    /\ gkey <$> top_10 ch
       = ["P12"; "P11"; "P10"; "P09"; "P08"; "P07"; "P06"; "P05"; "P04"; "P03"]%string.
Proof.
  eexists _, _, _. split; [vm_compute; reflexivity|].
  split; [reflexivity|]. split; vm_compute; reflexivity.
Qed.

Lemma wrap_int64_range (z : Z) : - 2 ^ 63 <= wrap_int64 z < 2 ^ 63.
Proof. unfold wrap_int64. pose proof (Z.mod_pos_bound (z + 2 ^ 63) (2 ^ 64)). lia. Qed.

Lemma wrap_int64_fits (z : Z) : - 2 ^ 63 <= z < 2 ^ 63 -> wrap_int64 z = z.
Proof. intros Hz. unfold wrap_int64. rewrite Z.mod_small; lia. Qed.

Lemma sum_int64_range (l : list Z) : - 2 ^ 63 <= sum_int64 l < 2 ^ 63.
Proof. rewrite sum_int64_exact. apply wrap_int64_range. Qed.

(** X14: the Quantity tile is an [int64]: it lies between -2^63 and 2^63 - 1,
    it differs from the exact sum of the Quantity column by a multiple of
    2^64, and it is the exact sum whenever the exact sum is in that range. *)
Theorem total_quantity_int64 (df : DataFrame) :
  let exact := foldr Z.add 0 (Quantity <$> df) in
  let tile := total_quantity (kpi_calculation df) in
  - 2 ^ 63 <= tile < 2 ^ 63
  /\ (tile - exact) mod 2 ^ 64 = 0
  /\ (- 2 ^ 63 <= exact < 2 ^ 63 -> tile = exact).
Proof.
  cbv zeta. destruct (kpi_calculation_totals df) as (_ & -> & _).
  rewrite sum_int64_exact. split; [apply wrap_int64_range|]. split.
  - unfold wrap_int64.
    set (e := foldr Z.add 0 (Quantity <$> df)).
    replace ((e + 2 ^ 63) mod 2 ^ 64 - 2 ^ 63 - e)
      with ((e + 2 ^ 63) mod 2 ^ 64 - (e + 2 ^ 63)) by ring.
    rewrite Zminus_mod, Zmod_mod, <- Zminus_mod, Z.sub_diag. reflexivity.
  - apply wrap_int64_fits.
Qed.

(** ** The (Category, Quarter) view against the (Quarter, Category) view *)

Lemma filter_fmap_rows (g : Row -> Row) (P : Row -> Prop) `{!forall r, Decision (P r)}
    (l : DataFrame) :
  filter P (g <$> l) = g <$> filter (fun r => P (g r)) l.
Proof.
  induction l as [|r l IH]; [done|].
  cbn [fmap list_fmap]. rewrite !filter_cons.
  destruct (decide (P (g r))); cbn [fmap list_fmap]; by rewrite IH.
Qed.

Lemma rekeyed_groups (df : DataFrame) :
  (fun g => (gkey g, (SumSales g, SumQuantity g, SumProfit g)))
    <$> grouped_view_margin_sum (pair_key Category Quarter) (with_margin_rate df)
  ≡ₚ (fun g => (prod_swap (gkey g), (SumSales g, SumQuantity g, SumProfit g)))
       <$> grouped_view (pair_key Quarter Category) df.
Proof.
  set (sums := fun rows : DataFrame =>
                 (sumQ (Sales <$> rows), sum_int64 (Quantity <$> rows), sumQ (Profit <$> rows))).
  assert (Hkey : forall r, pair_key Category Quarter r
                           = prod_swap <$> pair_key Quarter Category r).
  { intros r. unfold pair_key. by destruct (Quarter r), (Category r). }
  assert (Hswap : forall (k : string * string) (o : option (string * string)),
            prod_swap <$> o = Some k <-> o = Some (prod_swap k)).
  { intros [c q] [[q' c']|]; cbn; [|done]. split; intros [= -> ->]; done. }
  transitivity ((fun k => (k, sums (filter (fun r => pair_key Quarter Category r
                                                    = Some (prod_swap k)) df)))
                  <$> group_keys (pair_key Category Quarter) (with_margin_rate df)).
  { unfold grouped_view_margin_sum, groupby, group_keys.
    rewrite <- !list_fmap_compose. apply reflexive_eq, list_fmap_ext.
    intros _ k _. cbn. f_equal. unfold with_margin_rate, sums.
    rewrite filter_fmap_rows, <- !list_fmap_compose.
    assert (E : filter (fun r => pair_key Category Quarter
                                   (set_Margin_Rate (margin_rate_of (Sales r) (Profit r)) r)
                                 = Some k) df
                = filter (fun r => pair_key Quarter Category r = Some (prod_swap k)) df).
    { apply list_filter_iff. intros r.
      change (pair_key Category Quarter (set_Margin_Rate _ r))
        with (pair_key Category Quarter r).
      by rewrite Hkey, Hswap. }
    by rewrite E. }
  transitivity ((fun k => (k, sums (filter (fun r => pair_key Quarter Category r
                                                    = Some (prod_swap k)) df)))
                  <$> (prod_swap <$> group_keys (pair_key Quarter Category) df)).
  - apply fmap_Permutation, NoDup_Permutation.
    + apply NoDup_group_keys.
    + apply NoDup_fmap_2; [|apply NoDup_group_keys].
      intros [a b] [a' b'] [= -> ->]. done.
    + intros k. rewrite list_elem_of_fmap, elem_of_group_keys. split.
      * intros (r & Hr & Hk). unfold with_margin_rate in Hr.
        apply list_elem_of_fmap in Hr as (r0 & -> & Hr0).
        exists (prod_swap k). split; [by destruct k|].
        apply elem_of_group_keys. exists r0. split; [done|].
        apply Hswap. by rewrite <- Hkey.
      * intros (k' & -> & Hk'). apply elem_of_group_keys in Hk' as (r0 & Hr0 & Hk0).
        exists (set_Margin_Rate (margin_rate_of (Sales r0) (Profit r0)) r0). split.
        -- unfold with_margin_rate. apply list_elem_of_fmap. by exists r0.
        -- change (pair_key Category Quarter (set_Margin_Rate _ r0))
             with (pair_key Category Quarter r0).
           rewrite Hkey, Hk0. done.
  - unfold grouped_view, groupby, group_keys.
    rewrite <- !list_fmap_compose. apply reflexive_eq, list_fmap_ext.
    intros _ [q c] _. reflexivity.
Qed.

(** X15: the (Category, Quarter) view and the (Quarter, Category) view have
    the same groups with the same sums: listing key, SumSales, SumQuantity
    and SumProfit, the first is a rearrangement of the second with the two
    parts of the key exchanged.  They differ in the order of the rows and in
    the Margin Rate only. *)
Theorem category_quarter_same_groups
    (us_abbr : string -> option string)
    (sort_values_desc : forall A : Type, (A -> Q) -> list A -> list A)
    (fs : FilterState) (kpi : KPI) (d : DataFrame) :
  match script us_abbr sort_values_desc fs kpi (loaded d) with
  | (Ok out, _) =>
      match out_charts out with
      | None => apply_filters fs d = []
      | Some ch =>
          (fun g => (gkey g, (SumSales g, SumQuantity g, SumProfit g)))
            <$> df_grouped_new ch
          ≡ₚ (fun g => (((gkey g).2, (gkey g).1), (SumSales g, SumQuantity g, SumProfit g)))
               <$> quarterly_data ch
      end
  | (Raised _, _) => apply_filters fs d <> []
  end.
Proof.
  pose proof (script_outcome us_abbr sort_values_desc fs kpi d) as Hout. cbv zeta in Hout.
  destruct (script us_abbr sort_values_desc fs kpi (loaded d)) as [[out|e] w];
    [|by destruct Hout].
  destruct Hout as [_ Hch]. destruct (out_charts out) as [ch|]; [|done].
  destruct Hch as (_ & f2 & _ & ->). cbn [charts_of df_grouped_new quarterly_data].
  apply rekeyed_groups.
Qed.

(** ** The quarterly totals *)

Lemma string_leb_trans (a b c : string) :
  String.leb a b = true -> String.leb b c = true -> String.leb a c = true.
Proof.
  assert (Hrefl : forall s, String.compare s s = Eq).
  { intros s. by apply (String_as_OT.cmp_eq s s). }
  unfold String.leb.
  destruct (String.compare a b) eqn:Eab; [| |done];
    destruct (String.compare b c) eqn:Ebc; try done; intros _ _.
  - apply String.compare_eq_iff in Eab, Ebc. subst. by rewrite Hrefl.
  - apply String.compare_eq_iff in Eab. subst. by rewrite Ebc.
  - apply String.compare_eq_iff in Ebc. subst. by rewrite Eab.
  - apply String_as_OT.cmp_lt in Eab, Ebc.
    pose proof (String_as_OT.lt_trans _ _ _ Eab Ebc) as Hac.
    apply String_as_OT.cmp_lt in Hac. unfold String_as_OT.cmp in Hac. by rewrite Hac.
Qed.

#[local] Instance string_le_transitive : Transitive (@ord_le string _).
Proof.
  intros a b c. unfold ord_le, ord_leb, string_Ord. rewrite !Is_true_true.
  apply string_leb_trans.
Qed.

#[local] Instance string_le_antisymm : AntiSymm (=) (@ord_le string _).
Proof.
  intros a b. unfold ord_le, ord_leb, string_Ord. rewrite !Is_true_true.
  apply String.leb_antisym.
Qed.

Lemma sorted_group_keys (key : Row -> option string) (df : DataFrame) :
  sorted (group_keys key df) = group_keys key df.
Proof.
  apply (Sorted_unique ord_le).
  - apply Sorted_merge_sort, _.
  - unfold group_keys. apply Sorted_merge_sort, _.
  - apply sorted_Permutation.
Qed.

Lemma unique_NoDup {A} `{EqDecision A} (l : list A) : NoDup l -> unique l = l.
Proof.
  induction 1 as [|x l Hx Hnd IH]; [done|].
  cbn. rewrite IH. f_equal. apply filter_all.
  apply Forall_forall. by intros y Hy ->.
Qed.

Lemma filter_none {A} (P : A -> Prop) `{!forall x, Decision (P x)} (l : list A) :
  (forall x, x ∈ l -> ~ P x) -> filter P l = [].
Proof.
  induction l as [|x l IH]; intros Hl; [done|].
  rewrite filter_cons_False by (apply Hl; by left).
  apply IH. intros y Hy. apply Hl. by right.
Qed.

Lemma filter_own_key {K} `{EqDecision K} (view : list (Agg K)) :
  NoDup (gkey <$> view) ->
  Forall (fun g => filter (fun g' => gkey g' = gkey g) view = [g]) view.
Proof.
  induction view as [|g view IH]; intros Hnd; [done|].
  cbn [fmap list_fmap] in Hnd. apply NoDup_cons in Hnd as [Hg Hnd].
  assert (Hother : forall g', g' ∈ view -> gkey g' <> gkey g).
  { intros g' Hg' E. apply Hg. rewrite <- E. apply list_elem_of_fmap. by exists g'. }
  constructor.
  - rewrite filter_cons_True by done. f_equal. by apply filter_none.
  - eapply Forall_impl; [by apply IH|]. cbn. intros g' Hg'.
    destruct (decide (gkey g = gkey g')) as [E|E]; [|done].
    exfalso. apply Hg. rewrite E.
    assert (Hin : g' ∈ filter (fun g'' => gkey g'' = gkey g') view)
      by (rewrite Hg'; by left).
    apply list_elem_of_filter in Hin as [_ Hin]. apply list_elem_of_fmap. by exists g'.
Qed.

Lemma sum_metric_single {K} (kpi : KPI) (g : Agg K) :
  - 2 ^ 63 <= SumQuantity g < 2 ^ 63 -> (sum_metric kpi [g] == metric kpi g)%Q.
Proof.
  intros Hq. destruct kpi; cbn [sum_metric metric fmap list_fmap sumQ sum_int64 foldr].
  - apply Qplus_0_r.
  - rewrite Z.add_0_r, wrap_int64_fits by done. reflexivity.
  - apply Qplus_0_r.
  - apply Qplus_0_r.
Qed.

Lemma quarterly_total_of_view (kpi : KPI) (key : Row -> option string) (df : DataFrame) :
  Forall2 (fun t g => t.1 = gkey g /\ (t.2 == metric kpi g)%Q)
          (quarterly_total kpi (grouped_view key df)) (grouped_view key df).
Proof.
  unfold quarterly_total.
  pose proof (NoDup_group_keys key df) as Hnd. rewrite <- grouped_view_keys in Hnd.
  rewrite (unique_NoDup _ Hnd), grouped_view_keys, sorted_group_keys, <- grouped_view_keys.
  rewrite Forall2_fmap_l, Forall2_fmap_l. apply Forall_Forall2_diag.
  pose proof (filter_own_key _ Hnd) as Hown.
  assert (Hrange : Forall (fun g => - 2 ^ 63 <= SumQuantity g < 2 ^ 63) (grouped_view key df)).
  { unfold grouped_view. apply Forall_fmap, Forall_true. intros g. apply sum_int64_range. }
  apply Forall_forall. intros g Hg. cbn. split; [done|].
  rewrite (proj1 (Forall_forall _ _) Hown g Hg).
  apply sum_metric_single. by apply (proj1 (Forall_forall _ _) Hrange).
Qed.

(** X16: grouping the quarterly view by quarter once more, as the trend plot
    does, changes nothing: the quarterly totals that are plotted are, row by
    row, the quarters of the quarterly view with the value the view already
    has for the selected KPI. *)
Theorem quarterly_total_is_quarterly_grouped
    (us_abbr : string -> option string)
    (sort_values_desc : forall A : Type, (A -> Q) -> list A -> list A)
    (fs : FilterState) (kpi : KPI) (d : DataFrame) :
  match script us_abbr sort_values_desc fs kpi (loaded d) with
  | (Ok out, _) =>
      match out_charts out with
      | None => apply_filters fs d = []
      | Some ch =>
          Forall2 (fun t g => t.1 = gkey g /\ (t.2 == metric kpi g)%Q)
                  (quarterly_total kpi (quarterly_grouped ch)) (quarterly_grouped ch)
      end
  | (Raised _, _) => apply_filters fs d <> []
  end.
Proof.
  pose proof (script_outcome us_abbr sort_values_desc fs kpi d) as Hout. cbv zeta in Hout.
  destruct (script us_abbr sort_values_desc fs kpi (loaded d)) as [[out|e] w];
    [|by destruct Hout].
  destruct Hout as [_ Hch]. destruct (out_charts out) as [ch|]; [|done].
  destruct Hch as (_ & f2 & _ & ->). cbn [charts_of quarterly_grouped].
  apply quarterly_total_of_view.
Qed.

(** ** The pivot table *)

Lemma sorted_unique_strict (l : list string) : Sorted string_lt (sorted (unique l)).
Proof.
  apply (Sorted_strict ord_le); [apply string_le_lt | |].
  - apply Sorted_merge_sort, _.
  - apply NoDup_sorted, NoDup_unique.
Qed.

Lemma pivot_cell_spec (kpi : KPI) (view : list (Agg (string * string))) (q c : string) :
  NoDup (gkey <$> view) ->
  (exists g, g ∈ view /\ gkey g = (q, c) /\ pivot_cell kpi view q c = metric kpi g)
  \/ (((q, c) ∉ gkey <$> view) /\ pivot_cell kpi view q c = 0%Q).
Proof.
  intros Hnd. unfold pivot_cell.
  destruct (filter (fun g => gkey g = (q, c)) view) as [|g rest] eqn:Ef.
  - right. split; [|done]. intros Hin. apply list_elem_of_fmap in Hin as (g & Hk & Hg).
    assert (Hin : g ∈ filter (fun g => gkey g = (q, c)) view)
      by (by apply list_elem_of_filter).
    rewrite Ef in Hin. by apply elem_of_nil in Hin.
  - left. exists g.
    assert (Hin : g ∈ filter (fun g => gkey g = (q, c)) view) by (rewrite Ef; by left).
    apply list_elem_of_filter in Hin as [Hk Hg]. done.
Qed.

Lemma pivot_cell_own (kpi : KPI) (view : list (Agg (string * string)))
    (g : Agg (string * string)) :
  NoDup (gkey <$> view) -> g ∈ view ->
  pivot_cell kpi view (gkey g).1 (gkey g).2 = metric kpi g.
Proof.
  intros Hnd Hg. unfold pivot_cell.
  pose proof (proj1 (Forall_forall _ _) (filter_own_key view Hnd) g Hg) as Hown.
  cbn in Hown. destruct (gkey g) as [q c] eqn:Ek. cbn. by rewrite Hown.
Qed.

Lemma pivot_data_table (kpi : KPI) (view : list (Agg (string * string))) :
  NoDup (gkey <$> view) ->
  exists table columns,
    pivot_data kpi view = Some table
    /\ Sorted string_lt (table.*1)
    /\ Sorted string_lt columns
    /\ Forall (fun line => (line.2).*1 = columns) table
    /\ Forall (fun g => exists cells, ((gkey g).1, cells) ∈ table
                                      /\ ((gkey g).2, metric kpi g) ∈ cells) view
    /\ Forall (fun line =>
                 Forall (fun cell =>
                           (exists g, g ∈ view /\ gkey g = (line.1, cell.1)
                                      /\ cell.2 = metric kpi g)
                           \/ (((line.1, cell.1) ∉ gkey <$> view) /\ cell.2 = 0%Q))
                        line.2) table.
Proof.
  intros Hnd. unfold pivot_data. rewrite decide_True by done.
  set (index := sorted (unique ((fun g => (gkey g).1) <$> view))).
  set (columns := sorted (unique ((fun g => (gkey g).2) <$> view))).
  eexists _, columns. split; [reflexivity|].
  split. { rewrite <- list_fmap_compose. rewrite list_fmap_id. apply sorted_unique_strict. }
  split; [apply sorted_unique_strict|].
  split. { apply Forall_fmap, Forall_true. intros q. cbn.
           rewrite <- list_fmap_compose. apply list_fmap_id. }
  split.
  - apply Forall_forall. intros g Hg.
    exists ((fun c => (c, pivot_cell kpi view (gkey g).1 c)) <$> columns). split.
    + apply list_elem_of_fmap. exists (gkey g).1. split; [done|].
      unfold index. rewrite elem_of_sorted, elem_of_unique.
      apply list_elem_of_fmap. by exists g.
    + apply list_elem_of_fmap. exists (gkey g).2. split.
      * by rewrite (pivot_cell_own kpi view g Hnd Hg).
      * unfold columns. rewrite elem_of_sorted, elem_of_unique.
        apply list_elem_of_fmap. by exists g.
  - apply Forall_fmap, Forall_true. intros q. cbn.
    apply Forall_fmap, Forall_true. intros c. cbn. by apply pivot_cell_spec.
Qed.

(** X17: on the (Quarter, Category) view of a run the pivot never fails,
    because the view has one row per quarter and category.  The table has
    its quarters in increasing order, every line has the same categories in
    increasing order, every row of the view is found in the table at its
    quarter and category with its value of the selected KPI, and every other
    cell is 0. *)
Theorem pivot_never_fails
    (us_abbr : string -> option string)
    (sort_values_desc : forall A : Type, (A -> Q) -> list A -> list A)
    (fs : FilterState) (kpi : KPI) (d : DataFrame) :
  match script us_abbr sort_values_desc fs kpi (loaded d) with
  | (Ok out, _) =>
      match out_charts out with
      | None => apply_filters fs d = []
      | Some ch =>
          exists table columns,
            pivot_data kpi (quarterly_data ch) = Some table
            /\ Sorted string_lt (table.*1)
            /\ Sorted string_lt columns
            /\ Forall (fun line => (line.2).*1 = columns) table
            /\ Forall (fun g => exists cells, ((gkey g).1, cells) ∈ table
                                              /\ ((gkey g).2, metric kpi g) ∈ cells)
                      (quarterly_data ch)
            /\ Forall (fun line =>
                         Forall (fun cell =>
                                   (exists g, g ∈ quarterly_data ch
                                              /\ gkey g = (line.1, cell.1)
                                              /\ cell.2 = metric kpi g)
                                   \/ (((line.1, cell.1) ∉ gkey <$> quarterly_data ch)
                                       /\ cell.2 = 0%Q))
                                line.2) table
      end
  | (Raised _, _) => apply_filters fs d <> []
  end.
Proof.
  pose proof (script_outcome us_abbr sort_values_desc fs kpi d) as Hout. cbv zeta in Hout.
  destruct (script us_abbr sort_values_desc fs kpi (loaded d)) as [[out|e] w];
    [|by destruct Hout].
  destruct Hout as [_ Hch]. destruct (out_charts out) as [ch|]; [|done].
  destruct Hch as (_ & f2 & _ & ->). cbn [charts_of quarterly_data].
  apply pivot_data_table. rewrite grouped_view_keys. apply NoDup_group_keys.
Qed.

(** ** Relaxing the filters *)

Lemma filter_sublist_impl {A} (P Q : A -> Prop)
    `{!forall x, Decision (P x), !forall x, Decision (Q x)} (l : list A) :
  (forall x, x ∈ l -> P x -> Q x) -> filter P l `sublist_of` filter Q l.
Proof.
  induction l as [|x l IH]; intros Himp; [done|].
  assert (IH' : filter P l `sublist_of` filter Q l).
  { apply IH. intros y Hy. apply Himp. by right. }
  rewrite !filter_cons.
  destruct (decide (P x)) as [HP|HP], (decide (Q x)) as [HQ|HQ].
  - by apply sublist_skip.
  - exfalso. apply HQ, Himp; [by left | done].
  - by apply sublist_cons.
  - done.
Qed.

Lemma apply_filters_as_filter (fs : FilterState) (d : DataFrame) :
  apply_filters fs d = filter (satisfies fs) d.
Proof.
  rewrite apply_filters_in_order, apply_in_order_filter.
  apply list_filter_iff. intros r.
  assert (Hmask : forall col pick,
            Forall (fun p : Row -> bool => p r) (set_mask col pick) <-> picked col pick r).
  { intros col pick. unfold set_mask, picked.
    destruct (is_All pick) eqn:E; cbn [negb].
    - apply String.eqb_eq in E. split; [done | constructor].
    - apply is_All_false in E. rewrite Forall_singleton. unfold eq_mask.
      rewrite bool_decide_spec. tauto. }
  unfold set_predicates, satisfies.
  rewrite !Forall_app, !Hmask, Forall_singleton, date_mask_spec. tauto.
Qed.

(** X19: setting a selector to "All" or widening the date range never
    removes a row: the frame left by the tighter filter state is a sub-list
    of the frame left by the relaxed one. *)
Theorem relaxing_filters_keeps_rows (wide tight : FilterState) (d : DataFrame) :
  relaxed wide tight ->
  exists (r1 r2 : ref) (w1 w2 : World) (f1 f2 : DataFrame),
    filter_phase tight (loaded d) = (Ok r1, w1) /\ frames w1 !! r1 = Some f1
    /\ filter_phase wide (loaded d) = (Ok r2, w2) /\ frames w2 !! r2 = Some f2
    /\ f1 `sublist_of` f2.
Proof.
  intros (H1 & H2 & H3 & H4 & H5 & Hfrom & Hto).
  destruct (filter_phase_run tight d) as (r1 & w1 & E1 & _ & _ & Hr1 & _).
  destruct (filter_phase_run wide d) as (r2 & w2 & E2 & _ & _ & Hr2 & _).
  exists r1, r2, w1, w2, (apply_filters tight d), (apply_filters wide d).
  repeat (split; [done|]).
  rewrite !apply_filters_as_filter. apply filter_sublist_impl.
  assert (Hpick : forall col a b r, relaxes a b -> picked col b r -> picked col a r).
  { intros col a b r [-> | ->] Hp; [done|]. by intros Hne. }
  intros r _ (P1 & P2 & P3 & P4 & P5 & Hlo & Hhi).
  unfold satisfies, in_date_range, to_datetime in *. rewrite ns_per_day_value in *.
  repeat split; eauto; lia.
Qed.

Lemma relaxing_filters_keeps_rows_witness :
  relaxed (no_filter 16000 18000) west_consumer_default
  /\ exists (r1 r2 : ref) (w1 w2 : World) (f1 f2 : DataFrame),
       filter_phase west_consumer_default (loaded sample_rows) = (Ok r1, w1)
       /\ frames w1 !! r1 = Some f1
       /\ filter_phase (no_filter 16000 18000) (loaded sample_rows) = (Ok r2, w2)
       /\ frames w2 !! r2 = Some f2
       /\ f1 `sublist_of` f2.
Proof.
  assert (H : relaxed (no_filter 16000 18000) west_consumer_default).
  { unfold relaxed, relaxes. cbn. repeat split; try (by right); lia. }
  split; [exact H|].
  exact (relaxing_filters_keeps_rows (no_filter 16000 18000) west_consumer_default
           sample_rows H).
Defined.
